(** * HTT-App backend (src/bew.py): a shallow embedding and its properties

    The backend of the handwriting-to-text application is sequential glue
    around the operating system, Pillow and the Tesseract binding.  The
    embedding keeps that shape: every call that leaves the program
    (os.path.exists, subprocess.run, Image.open, the image filters,
    pytesseract.image_to_string, open/write/close) is a primitive of a small
    reader/state/exception monad.  A primitive asks an oracle of the host
    environment for its answer and appends the call, with its answer, to a
    chronological trace; the program above the primitives is transcribed
    statement by statement.

    Modelling conventions.
    - A Python [str] is a Rocq [string]: its sequence of UTF-8 bytes.  Every
      [str] that UTF-8 can encode is covered; one holding a lone surrogate
      has no encoding and is outside the model.  Where Python works on
      characters ([repr], [str.strip]), the bytes are read as UTF-8.
    - Which characters are printable depends on the Unicode version of the
      interpreter; [repr] asks the host for it.
    - Exceptions are the subclasses of [Exception], the ones an
      [except Exception] clause catches.
    - The [print] calls that write diagnostics are left out: they are
      taken not to fail.
    - Branches that test [x is None] or [isinstance(x, str)] on a value that
      is a [string] here are decided by the type and left out. *)

From Stdlib Require Import ZArith Ascii.
From stdpp Require Import base tactics option list gmap strings.

Local Open Scope Z_scope.

(** ** Python strings *)

Definition nl : string := String "010"%char "".
Definition dquote : ascii := "034"%char.

(** [str.lower], as far as a comparison with ".png", ".jpg", ".jpeg" and
    ".bmp" can observe it: the ASCII capitals are mapped to their small
    letters.  A character outside ASCII is a sequence of bytes above 127;
    its lower-case form is again such a sequence, or holds one of the
    letters k and i (the Kelvin sign, the dotted capital I), which occur
    in none of the four suffixes.  Its bytes are kept. *)
Definition ascii_lower (c : ascii) : ascii :=
  let n := N_of_ascii c in
  if ((65 <=? n) && (n <=? 90))%N then ascii_of_N (n + 32) else c.

Fixpoint lower (s : string) : string :=
  match s with
  | "" => ""
  | String c t => String (ascii_lower c) (lower t)
  end.

(** [s.endswith(suf)]: [s] itself or one of its tails is [suf]. *)
Fixpoint endswith (s suf : string) : bool :=
  if String.eqb s suf then true
  else match s with
       | "" => false
       | String _ t => endswith t suf
       end.

(** [s.endswith((suf1, suf2, ...))] *)
Definition endswith_any (s : string) (sufs : list string) : bool :=
  existsb (endswith s) sufs.

(** Truth value of a [str]: only the empty string is falsy. *)
Definition truthy (s : string) : bool :=
  match s with "" => false | _ => true end.

(** [str(x)] for [x : Optional[str]], as [str.format] applies it. *)
Definition str_of_optional (o : option string) : string :=
  match o with Some s => s | None => "None" end.

Fixpoint contains_char (c : ascii) (s : string) : bool :=
  match s with
  | "" => false
  | String a t => Ascii.eqb c a || contains_char c t
  end.

Definition hex_digit (n : N) : ascii :=
  if (n <? 10)%N then ascii_of_N (48 + n) else ascii_of_N (87 + n).

(** [n] written with [digits] hexadecimal digits, in small letters. *)
Fixpoint hex (digits : nat) (n : N) : string :=
  match digits with
  | O => ""
  | S k => hex k (n / 16) +:+ String (hex_digit (n mod 16)) ""
  end.

(** One ASCII character of [repr(s)] under the quote [q]. *)
Definition repr_char (q c : ascii) : string :=
  let n := N_of_ascii c in
  if Ascii.eqb c q || Ascii.eqb c "\"%char then String "\"%char (String c "")
  else if (n =? 9)%N then "\t"
  else if (n =? 10)%N then "\n"
  else if (n =? 13)%N then "\r"
  else if ((n <? 32) || (n =? 127))%N
       then "\x" +:+ String (hex_digit (n / 16)) (String (hex_digit (n mod 16)) "")
  else String c "".

(** UTF-8.  [continuation k acc s] reads [k] continuation bytes (10xxxxxx)
    at the head of [s] and appends their six bits each to [acc]. *)
Fixpoint continuation (k : nat) (acc : N) (s : string) : option N :=
  match k with
  | O => Some acc
  | S k' =>
      match s with
      | String c t =>
          let n := N_of_ascii c in
          if ((128 <=? n) && (n <? 192))%N
          then continuation k' (acc * 64 + (n - 128)) t
          else None
      | "" => None
      end
  end.

(** The character that starts with the byte [c], followed by [t]: its code
    point and the number of its continuation bytes.  [None] where the
    bytes are not UTF-8, which no [str] gives. *)
Definition utf8_head (c : ascii) (t : string) : option (N * nat) :=
  let n := N_of_ascii c in
  if (n <? 128)%N then Some (n, 0%nat)
  else if (n <? 192)%N then None
  else if (n <? 224)%N then (λ cp, (cp, 1%nat)) <$> continuation 1 (n - 192) t
  else if (n <? 240)%N then (λ cp, (cp, 2%nat)) <$> continuation 2 (n - 224) t
  else if (n <? 248)%N then (λ cp, (cp, 3%nat)) <$> continuation 3 (n - 240) t
  else None.

(** One character outside ASCII of [repr(s)]: its bytes when the Unicode
    database of the interpreter classes it as printable
    ([str.isprintable]), and else the escape \xhh, \uhhhh or \Uhhhhhhhh of
    its code point [cp]. *)
Definition repr_code (printable : N → bool) (cp : N) (bytes : string) : string :=
  if printable cp then bytes
  else if (cp <? 256)%N then "\x" +:+ hex 2 cp
  else if (cp <? 65536)%N then "\u" +:+ hex 4 cp
  else "\U" +:+ hex 8 cp.

(** The characters of [repr(s)] between the quotes.  [skip] counts the
    continuation bytes of the character that was just written. *)
Fixpoint repr_chars (printable : N → bool) (q : ascii) (skip : nat) (s : string)
    : string :=
  match s with
  | "" => ""
  | String c t =>
      match skip with
      | S k => repr_chars printable q k t
      | O =>
          match utf8_head c t with
          | Some (_, O) => repr_char q c +:+ repr_chars printable q 0 t
          | Some (cp, k) =>
              repr_code printable cp (String c (String.substring 0 k t))
              +:+ repr_chars printable q k t
          | None => String c (repr_chars printable q 0 t)
          end
      end
  end.

(** [repr(s)] for a [str]: single quotes unless the string holds a single
    quote and no double quote; the quote and the backslash are escaped, the
    ASCII control characters and the characters that are not printable are
    written as escapes. *)
Definition repr_str (printable : N → bool) (s : string) : string :=
  let q := if contains_char "'"%char s && negb (contains_char dquote s)
           then dquote else "'"%char in
  String q (repr_chars printable q 0 s) +:+ String q "".

Fixpoint join (sep : string) (l : list string) : string :=
  match l with
  | [] => ""
  | [x] => x
  | x :: rest => x +:+ sep +:+ join sep rest
  end.

(** [repr(l)] for a list of [str]. *)
Definition repr_list (printable : N → bool) (l : list string) : string :=
  "[" +:+ join ", " (map (repr_str printable) l) +:+ "]".

(** [str.strip()] removes the white space of the Unicode database from
    both ends: the characters that [str.isspace] accepts, a set of 29 code
    points that has not changed since Unicode 6.3.  In ASCII these are the
    tab, the line feed, the vertical tab, the form feed, the carriage
    return, the four separators 28 to 31 and the space. *)
Definition is_space (c : ascii) : bool :=
  let n := N_of_ascii c in
  (((9 <=? n) && (n <=? 13)) || ((28 <=? n) && (n <=? 32)))%N.

(** Outside ASCII, by the bytes of the UTF-8 encoding: U+0085 and U+00A0
    (C2 85, C2 A0); U+1680 (E1 9A 80); U+2000 to U+200A, U+2028, U+2029
    and U+202F (E2 80 80 to E2 80 8A, E2 80 A8, E2 80 A9, E2 80 AF);
    U+205F (E2 81 9F); U+3000 (E3 80 80). *)
Definition is_space2 (c0 c1 : ascii) : bool :=
  let n0 := N_of_ascii c0 in
  let n1 := N_of_ascii c1 in
  ((n0 =? 194) && ((n1 =? 133) || (n1 =? 160)))%N.

Definition is_space3 (c0 c1 c2 : ascii) : bool :=
  let n0 := N_of_ascii c0 in
  let n1 := N_of_ascii c1 in
  let n2 := N_of_ascii c2 in
  (((n0 =? 225) && (n1 =? 154) && (n2 =? 128))
   || ((n0 =? 226) && (n1 =? 128)
       && (((128 <=? n2) && (n2 <=? 138)) || (n2 =? 168) || (n2 =? 169) || (n2 =? 175)))
   || ((n0 =? 226) && (n1 =? 129) && (n2 =? 159))
   || ((n0 =? 227) && (n1 =? 128) && (n2 =? 128)))%N.

(** The same tests on a string that is read from its end ([backwards]):
    the bytes of a character come in the opposite order. *)
Definition space2 (backwards : bool) (a b : ascii) : bool :=
  if backwards then is_space2 b a else is_space2 a b.

Definition space3 (backwards : bool) (a b c : ascii) : bool :=
  if backwards then is_space3 c b a else is_space3 a b c.

(** The white space at the head of the string is removed, character by
    character.  In UTF-8 the bytes of a white-space character at the head
    or at the end of a string are that character: no other character
    starts or ends with them. *)
Fixpoint lstrip_bytes (backwards : bool) (s : string) : string :=
  match s with
  | "" => ""
  | String c0 t0 =>
      if is_space c0 then lstrip_bytes backwards t0
      else
        match t0 with
        | "" => s
        | String c1 t1 =>
            if space2 backwards c0 c1 then lstrip_bytes backwards t1
            else
              match t1 with
              | "" => s
              | String c2 t2 =>
                  if space3 backwards c0 c1 c2 then lstrip_bytes backwards t2 else s
              end
        end
  end.

Definition lstrip (s : string) : string := lstrip_bytes false s.

Definition rstrip (s : string) : string :=
  String.rev (lstrip_bytes true (String.rev s)).

Definition strip (s : string) : string := rstrip (lstrip s).

(** ** The file-extension reading of the format gate

    The specification speaks of a path's extension; the code tests
    suffixes.  [extension] is the specification's notion: the text after
    the last dot of the path, when it has a dot. *)
Fixpoint extension (s : string) : option string :=
  match s with
  | "" => None
  | String c t =>
      match extension t with
      | Some e => Some e
      | None => if Ascii.eqb c "."%char then Some t else None
      end
  end.

Definition supported_extensions : list string := ["png"; "jpg"; "jpeg"; "bmp"].

Definition has_supported_extension (path : string) : bool :=
  match extension path with
  | Some e => bool_decide (lower e ∈ supported_extensions)
  | None => false
  end.

(** ** Exceptions, outcomes and the host environment *)

Inductive exn_class :=
  | ValueError
  | TimeoutExpired                    (* subprocess.TimeoutExpired *)
  | OtherException (name : string).   (* OSError, UnidentifiedImageError, ... *)

(** An exception: its class and [str(e)]. *)
Record exn := Exn { exn_class_of : exn_class; exn_msg : string }.

Inductive outcome (A : Type) :=
  | Return (a : A)
  | Raise (e : exn).
Arguments Return {A} a.
Arguments Raise {A} e.

(** A decoded bitmap, as Pillow holds it. *)
Record image := Image { img_mode : string; img_pixels : list N }.

(** [subprocess.CompletedProcess] with [capture_output=True, text=True]. *)
Record completed_process :=
  CompletedProcess { returncode : Z; stdout : string; stderr : string }.

Inductive node :=
  | File (content : string)
  | Dir.

(** What the host answers to the calls of the program. *)
Record environ := Environ {
  env_getenv : string → option string;
  (** chr(cp).isprintable(), for a code point above 127: the Unicode
      database of the interpreter, which [repr] consults *)
  env_isprintable : N → bool;
  (** os.linesep *)
  env_linesep : string;
  (** subprocess.run(argv, capture_output=True, text=True, timeout=t) *)
  env_run : list string → Z → outcome completed_process;
  (** Image.open(path), given what the path holds *)
  env_image_open : string → option node → outcome image;
  (** img.convert(mode) *)
  env_convert : image → string → outcome image;
  (** ImageEnhance.Contrast(img).enhance(factor) *)
  env_contrast : image → Z → outcome image;
  (** img.filter(kernel) *)
  env_filter : image → string → outcome image;
  (** pytesseract.image_to_string(img, config=config), run with the command
      [pytesseract.pytesseract.tesseract_cmd] *)
  env_image_to_string : string → image → string → outcome string;
  (** open(path, 'w', encoding=enc): the error, when the host refuses *)
  env_open_w : string → string → option exn;
  (** f.write(text) and the close that leaves the [with] block *)
  env_write : string → string → option exn;
  env_close : string → option exn
}.

(** One call that left the program, with the answer it got. *)
Inductive event :=
  | EvGetenv (name : string) (r : option string)
  | EvExists (path : string) (r : bool)
  | EvRun (argv : list string) (timeout : Z) (r : outcome completed_process)
  | EvImageOpen (path : string) (r : outcome image)
  | EvConvert (mode : string) (r : outcome image)
  | EvContrast (factor : Z) (r : outcome image)
  | EvFilter (kernel : string) (r : outcome image)
  | EvImageToString (cmd config : string) (r : outcome string)
  | EvOpenW (path encoding : string) (r : option exn)
  | EvWrite (path text : string) (r : option exn)
  | EvClose (path : string) (r : option exn).

(** The mutable world: the filesystem, the module global
    [pytesseract.pytesseract.tesseract_cmd], and the trace so far. *)
Record state := State {
  fs : gmap string node;
  tesseract_cmd : string;
  trace : list event
}.

Definition log (ev : event) (st : state) : state :=
  {| fs := fs st; tesseract_cmd := tesseract_cmd st; trace := trace st ++ [ev] |}.

Definition with_fs (f : gmap string node) (st : state) : state :=
  {| fs := f; tesseract_cmd := tesseract_cmd st; trace := trace st |}.

Definition with_cmd (c : string) (st : state) : state :=
  {| fs := fs st; tesseract_cmd := c; trace := trace st |}.

(** ** The monad of Python statements *)

Definition M (A : Type) : Type := environ → state → outcome A * state.

Definition ret {A} (a : A) : M A := λ _ st, (Return a, st).

(** Sequencing: an exception ends the sequence, its effects stay. *)
Definition bind {A B} (m : M A) (k : A → M B) : M B := λ E st,
  match m E st with
  | (Return a, st') => k a E st'
  | (Raise e, st') => (Raise e, st')
  end.

Declare Scope py_scope.
Delimit Scope py_scope with py.
Notation "x ← y ; z" := (bind y (λ x, z))
  (at level 20, y at level 100, z at level 200, only parsing) : py_scope.
Notation "x ;; z" := (bind x (λ _, z))
  (at level 100, z at level 200, only parsing, right associativity) : py_scope.
Local Open Scope py_scope.

Definition raise {A} (e : exn) : M A := λ _ st, (Raise e, st).

(** [try: body  except Exception as e: handler e] *)
Definition try_except {A} (body : M A) (handler : exn → M A) : M A := λ E st,
  match body E st with
  | (Return a, st') => (Return a, st')
  | (Raise e, st') => handler e E st'
  end.

Definition is_TimeoutExpired (e : exn) : bool :=
  match exn_class_of e with TimeoutExpired => true | _ => false end.

(** *** Primitives *)

Definition os_getenv (name : string) : M (option string) := λ E st,
  let r := env_getenv E name in (Return r, log (EvGetenv name r) st).

(** [os.path.exists]: the empty path names nothing. *)
Definition path_exists (f : gmap string node) (path : string) : bool :=
  truthy path && bool_decide (is_Some (f !! path)).

Definition os_path_exists (path : string) : M bool := λ _ st,
  let r := path_exists (fs st) path in
  (Return r, log (EvExists path r) st).

Definition subprocess_run (argv : list string) (timeout : Z) : M completed_process :=
  λ E st, let r := env_run E argv timeout in (r, log (EvRun argv timeout r) st).

Definition Image_open (path : string) : M image := λ E st,
  let r := env_image_open E path (fs st !! path) in (r, log (EvImageOpen path r) st).

Definition img_convert (img : image) (mode : string) : M image := λ E st,
  let r := env_convert E img mode in (r, log (EvConvert mode r) st).

Definition Contrast_enhance (img : image) (factor : Z) : M image := λ E st,
  let r := env_contrast E img factor in (r, log (EvContrast factor r) st).

Definition img_filter (img : image) (kernel : string) : M image := λ E st,
  let r := env_filter E img kernel in (r, log (EvFilter kernel r) st).

(** The Unicode database that [repr] and the f-strings read. *)
Definition unicode_isprintable : M (N → bool) := λ E st, (Return (env_isprintable E), st).

Definition get_tesseract_cmd : M string := λ _ st, (Return (tesseract_cmd st), st).

Definition set_tesseract_cmd (c : string) : M unit := λ _ st, (Return (), with_cmd c st).

Definition image_to_string (img : image) (config : string) : M string := λ E st,
  let cmd := tesseract_cmd st in
  let r := env_image_to_string E cmd img config in
  (r, log (EvImageToString cmd config r) st).

(** *** Text files

    A file opened with ['w'] is created or truncated.  The text layer
    (newline=None) writes every line feed as [os.linesep]. *)
Fixpoint translate_newlines (linesep s : string) : string :=
  match s with
  | "" => ""
  | String c t =>
      if Ascii.eqb c "010"%char then linesep +:+ translate_newlines linesep t
      else String c (translate_newlines linesep t)
  end.

Definition content_of (o : option node) : string :=
  match o with Some (File c) => c | _ => "" end.

Definition file_open_w (path encoding : string) : M unit := λ E st,
  let r := env_open_w E path encoding in
  match r with
  | Some e => (Raise e, log (EvOpenW path encoding r) st)
  | None => (Return (), log (EvOpenW path encoding r) (with_fs (<[path := File ""]> (fs st)) st))
  end.

Definition file_write (path text : string) : M unit := λ E st,
  let r := env_write E path text in
  match r with
  | Some e => (Raise e, log (EvWrite path text r) st)
  | None =>
      let data := content_of (fs st !! path) +:+ translate_newlines (env_linesep E) text in
      (Return (), log (EvWrite path text r) (with_fs (<[path := File data]> (fs st)) st))
  end.

Definition file_close (path : string) : M unit := λ E st,
  let r := env_close E path in
  match r with
  | Some e => (Raise e, log (EvClose path r) st)
  | None => (Return (), log (EvClose path r) st)
  end.

(** Leaving a [with] block closes the file, also when the block raised;
    an error of the close is the one that propagates. *)
Definition closing {A} (path : string) (body : M A) : M A := λ E st,
  match body E st with
  | (r, st1) =>
      match file_close path E st1 with
      | (Return _, st2) => (r, st2)
      | (Raise e, st2) => (Raise e, st2)
      end
  end.

(** [with open(path, 'w', encoding=enc) as f: body] *)
Definition with_open_w {A} (path encoding : string) (body : M A) : M A :=
  file_open_w path encoding;; closing path body.

(** ** class OCRProcessor *)

Module OCRProcessor.

Record t := Build { config : string }.

(** The candidate list of [__init__]: the three install locations and the
    bare command name, with the hint in front when it is given (truthy). *)
Definition possible_paths (username tesseract_path : option string) : list string :=
  let possible_paths :=
    [ "C:\Program Files\Tesseract-OCR\tesseract.exe";
      "C:\Program Files (x86)\Tesseract-OCR\tesseract.exe";
      "C:\Users\" +:+ str_of_optional username
        +:+ "\AppData\Local\Programs\Tesseract-OCR\tesseract.exe";
      "tesseract" ] in
  match tesseract_path with
  | Some p => if truthy p then p :: possible_paths else possible_paths
  | None => possible_paths
  end.

(** The body of the loop over the candidates, with its [try]: [true] is
    the [break] with [tesseract_found] set, [false] goes on to the next
    candidate (the test failed, or raised and the handler [continue]s). *)
Definition test_path (path : string) : M bool :=
  try_except
    (if String.eqb path "tesseract" then
       result ← subprocess_run ["tesseract"; "--version"] 10;
       if returncode result =? 0
       then set_tesseract_cmd "tesseract";; ret true
       else ret false
     else
       found ← os_path_exists path;
       if found
       then set_tesseract_cmd path;; ret true
       else ret false)
    (λ _, ret false).

Fixpoint test_paths (paths : list string) : M bool :=
  match paths with
  | [] => ret false
  | path :: rest =>
      tesseract_found ← test_path path;
      if tesseract_found then ret true else test_paths rest
  end.

(** The message of the failed locator; the f-string writes the list of
    the candidates as [repr] does. *)
Definition not_found_message (printable : N → bool) (paths : list string) : string :=
  "Tesseract not found! Please install Tesseract-OCR from:" +:+ nl
  +:+ "https://github.com/UB-Mannheim/tesseract/wiki" +:+ nl
  +:+ "Tried paths: " +:+ repr_list printable paths.

Definition __init__ (tesseract_path : option string) : M t :=
  username ← os_getenv "USERNAME";
  let paths := possible_paths username tesseract_path in
  tesseract_found ← test_paths paths;
  if tesseract_found
  then ret {| config := "--oem 3 --psm 6" |}
  else
    printable ← unicode_isprintable;
    raise (Exn ValueError (not_found_message printable paths)).

Definition preprocess_image (image_path : string) : M image :=
  try_except
    (found ← os_path_exists image_path;
     if negb found
     then raise (Exn ValueError ("Image file does not exist: " +:+ image_path))
     else
       img ← Image_open image_path;
       img ← img_convert img "L";
       img ← Contrast_enhance img 2;
       img ← img_filter img "SHARPEN";
       ret img)
    (λ e, raise (Exn ValueError ("Image processing failed: " +:+ exn_msg e))).

(** The test of the engine command before it is used (the inner [try] of
    [extract_text]).  The handler of [TimeoutExpired] comes first; an error
    raised by a handler is not caught by its sibling. *)
Definition test_tesseract_cmd : M unit :=
  try_except
    (cmd ← get_tesseract_cmd;
     found ← os_path_exists cmd;
     if found || String.eqb cmd "tesseract" then
       test_result ← subprocess_run [cmd; "--version"] 5;
       if negb (returncode test_result =? 0)
       then raise (Exn ValueError ("Tesseract test failed: " +:+ stderr test_result))
       else ret ()
     else raise (Exn ValueError ("Tesseract executable not found at: " +:+ cmd)))
    (λ e, if is_TimeoutExpired e
          then raise (Exn ValueError "Tesseract test timed out")
          else raise (Exn ValueError ("Tesseract validation failed: " +:+ exn_msg e))).

(** The body of the outer [try] of [extract_text]. *)
Definition extract_text_try (self : t) (image_path : string) (preprocess : bool) : M string :=
  (if String.eqb image_path ""
   then raise (Exn ValueError "Image path is empty string")
   else ret ());;
  img ← (if preprocess
         then preprocess_image image_path
         else
           found ← os_path_exists image_path;
           if negb found
           then raise (Exn ValueError ("Image file does not exist: " +:+ image_path))
           else Image_open image_path);
  test_tesseract_cmd;;
  text ← image_to_string img (config self);
  ret (strip text).

Definition extract_text (self : t) (image_path : string) (preprocess : bool) : M string :=
  try_except
    (extract_text_try self image_path preprocess)
    (λ e, raise (Exn ValueError ("Text extraction failed: " +:+ exn_msg e))).

End OCRProcessor.

(** ** class HandwritingToTextBackend *)

Module HandwritingToTextBackend.

Record t := Build { ocr : OCRProcessor.t }.

Definition __init__ (tesseract_path : option string) : M t :=
  o ← OCRProcessor.__init__ tesseract_path;
  ret {| ocr := o |}.

(** The suffix test of [process_image]. *)
Definition supported_format (image_path : string) : bool :=
  endswith_any (lower image_path) [".png"; ".jpg"; ".jpeg"; ".bmp"].

Definition process_image (self : t) (image_path : string) : M (bool * string) :=
  if negb (truthy image_path) then ret (false, "No image path provided")
  else
    found ← os_path_exists image_path;
    if negb found then ret (false, "File not found")
    else if negb (supported_format image_path)
    then ret (false, "Unsupported file format")
    else
      try_except
        (extracted_text ← OCRProcessor.extract_text (ocr self) image_path true;
         ret (true, extracted_text))
        (λ e, ret (false, exn_msg e)).

Definition save_text (text output_path : string) : M (bool * string) :=
  try_except
    (if negb (truthy text) then ret (false, "No text to save")
     else if negb (truthy output_path) then ret (false, "No output path provided")
     else
       with_open_w output_path "utf-8" (file_write output_path text);;
       ret (true, "Text saved successfully"))
    (λ e, ret (false, "Error saving file: " +:+ exn_msg e)).

End HandwritingToTextBackend.

(** ** Reading a saved file back

    The program never reads the file it saved.  These are the two ways of
    reading it that Python offers: the bytes as they are, and the text
    layer of [open(path, encoding='utf-8').read()], whose universal
    newlines turn a carriage return, alone or before a line feed, into a
    line feed. *)
Definition read_bytes (f : gmap string node) (path : string) : option string :=
  match f !! path with
  | Some (File c) => Some c
  | _ => None
  end.



(** ** Reading traces *)

(** The exception a call ended with, if it did. *)
Definition outcome_exn {A} (r : outcome A) : option exn :=
  match r with Return _ => None | Raise e => Some e end.

Definition event_exn (ev : event) : option exn :=
  match ev with
  | EvGetenv _ _ | EvExists _ _ => None
  | EvRun _ _ r => outcome_exn r
  | EvImageOpen _ r | EvConvert _ r | EvContrast _ r | EvFilter _ r => outcome_exn r
  | EvImageToString _ _ r => outcome_exn r
  | EvOpenW _ _ r | EvWrite _ _ r | EvClose _ r => r
  end.

(** The event opens or decodes a file, or runs the engine. *)
Definition opens_or_invokes (ev : event) : bool :=
  match ev with
  | EvImageOpen _ _ | EvImageToString _ _ _ | EvRun _ _ _
  | EvOpenW _ _ _ | EvWrite _ _ _ | EvClose _ _ => true
  | _ => false
  end.

(** The event is a version probe that ran into its timeout. *)
Definition probe_timed_out (ev : event) : bool :=
  match ev with
  | EvRun _ _ (Raise c) => is_TimeoutExpired c
  | _ => false
  end.

Definition is_recognition (ev : event) : bool :=
  match ev with EvImageToString _ _ _ => true | _ => false end.

(** [s] occurs in [t]. *)
Fixpoint startswith (t s : string) : bool :=
  match s, t with
  | "", _ => true
  | String a s', String b t' => Ascii.eqb a b && startswith t' s'
  | String _ _, "" => false
  end.

Fixpoint occurs_in (s t : string) : bool :=
  if startswith t s then true
  else match t with
       | "" => false
       | String _ t' => occurs_in s t'
       end.

(** ** The tests of the engine, as the specification words them *)

(** The locator accepts a candidate: the bare command name when the version
    probe, run under a timeout of 10, exits with 0; any other candidate when
    it exists on the filesystem. *)
Definition accepts (E : environ) (f : gmap string node) (path : string) : bool :=
  if String.eqb path "tesseract" then
    match env_run E ["tesseract"; "--version"] 10 with
    | Return r => returncode r =? 0
    | Raise _ => false
    end
  else path_exists f path.

(** The candidates in the order the specification gives them: the hint when
    it is given, the well-known install locations, the bare command name. *)
Definition hint_candidates (tesseract_path : option string) : list string :=
  match tesseract_path with
  | Some p => if truthy p then [p] else []
  | None => []
  end.

Definition install_locations (username : option string) : list string :=
  [ "C:\Program Files\Tesseract-OCR\tesseract.exe";
    "C:\Program Files (x86)\Tesseract-OCR\tesseract.exe";
    "C:\Users\" +:+ str_of_optional username
      +:+ "\AppData\Local\Programs\Tesseract-OCR\tesseract.exe" ].

(** The one call the locator makes to test a candidate. *)
Definition probe_event (E : environ) (f : gmap string node) (path : string) : event :=
  if String.eqb path "tesseract"
  then EvRun ["tesseract"; "--version"] 10 (env_run E ["tesseract"; "--version"] 10)
  else EvExists path (path_exists f path).

(** The engine reference is runnable: it is found, and the version probe,
    run under a timeout of 5, exits with 0. *)
Definition engine_found (f : gmap string node) (cmd : string) : bool :=
  path_exists f cmd || String.eqb cmd "tesseract".

Definition engine_runnable (E : environ) (f : gmap string node) (cmd : string) : bool :=
  engine_found f cmd &&
  match env_run E [cmd; "--version"] 5 with
  | Return r => returncode r =? 0
  | Raise _ => false
  end.

(** The result pair of [process_image] once the format gate is passed. *)
Definition delegate (r : outcome string * state) : outcome (bool * string) * state :=
  match r with
  | (Return text, st) => (Return (true, text), st)
  | (Raise e, st) => (Return (false, exn_msg e), st)
  end.

(** ** Sample hosts

    Concrete environments and states, for the instances of the theorems. *)

Definition CR : ascii := "013"%char.
Definition LF : ascii := "010"%char.
Definition CRLF : string := String CR (String LF "").

Definition tesseract_exe : string := "C:\Program Files\Tesseract-OCR\tesseract.exe".

Definition page : image := Image "RGB" [255; 255; 255; 0; 0; 0]%N.

Definition no_such_file : exn :=
  Exn (OtherException "FileNotFoundError")
    "[WinError 2] The system cannot find the file specified".

Definition probe_timeout : exn :=
  Exn TimeoutExpired "Command '['tesseract', '--version']' timed out after 5 seconds".

(** The Unicode database of the sample hosts.  It follows Unicode 14 in
    Latin-1 (the C1 controls, the no-break space and the soft hyphen are
    not printable), in the general punctuation (the spaces, the format
    characters and the separators of U+2000 to U+206F), for the Ogham and
    the ideographic space and for the surrogates and the private use area;
    any other code point is printable for these hosts. *)
Definition unicode_14_sample (cp : N) : bool :=
  negb (((128 <=? cp) && (cp <=? 160)) || (cp =? 173) || (cp =? 5760)
        || ((8192 <=? cp) && (cp <=? 8207)) || ((8232 <=? cp) && (cp <=? 8239))
        || ((8287 <=? cp) && (cp <=? 8303)) || (cp =? 12288)
        || ((55296 <=? cp) && (cp <=? 63743)))%N.

(** The no-break space U+00A0 and the em space U+2003, in UTF-8. *)
Definition nbsp : string := String "194"%char (String "160"%char "").
Definition em_space : string :=
  String "226"%char (String "128"%char (String "131"%char "")).

(** A host on which the engine runs, pages decode, and files can be
    written; [linesep] and the answer of the version probe are left open. *)
Definition host (linesep : string) (run : outcome completed_process) : environ :=
  {| env_getenv := λ name, if String.eqb name "USERNAME" then Some "ada" else None;
     env_isprintable := unicode_14_sample;
     env_linesep := linesep;
     env_run := λ _ _, run;
     env_image_open := λ _ n,
       match n with
       | Some (File _) => Return page
       | _ => Raise no_such_file
       end;
     env_convert := λ img mode, Return (Image mode (img_pixels img));
     env_contrast := λ img _, Return img;
     env_filter := λ img _, Return img;
     env_image_to_string := λ _ _ _, Return (" TEST" +:+ nl);
     env_open_w := λ _ _, None;
     env_write := λ _ _, None;
     env_close := λ _, None |}.

Definition version_ok : outcome completed_process :=
  Return (CompletedProcess 0 "tesseract 5.3.0" "").

(** Windows and POSIX hosts with a working engine; a host whose engine is
    missing; a host whose version probe runs into its timeout. *)
Definition windows_host : environ := host CRLF version_ok.
Definition no_engine_host : environ := host CRLF (Raise no_such_file).
Definition slow_host : environ := host CRLF (Raise probe_timeout).

(** The engine is installed in its first well-known location, and a
    scanned page lies in the working directory. *)
Definition installed : state :=
  {| fs := {[ tesseract_exe := File "MZ"; "scan.PNG" := File "PNG" ]};
     tesseract_cmd := "tesseract";
     trace := [] |}.

(** Nothing is installed. *)
Definition bare : state :=
  {| fs := {[ "scan.PNG" := File "PNG" ]}; tesseract_cmd := "tesseract"; trace := [] |}.

Definition processor : OCRProcessor.t := {| OCRProcessor.config := "--oem 3 --psm 6" |}.
Definition backend : HandwritingToTextBackend.t :=
  {| HandwritingToTextBackend.ocr := processor |}.

(** ** Further readings of traces and of the host *)

(** The event is one of the three preprocessing steps. *)
Definition is_filter (ev : event) : bool :=
  match ev with
  | EvConvert _ _ | EvContrast _ _ | EvFilter _ _ => true
  | _ => false
  end.

(** The event runs the engine: a version probe or a recognition. *)
Definition is_engine_call (ev : event) : bool :=
  match ev with
  | EvRun _ _ _ | EvImageToString _ _ _ => true
  | _ => false
  end.

(** What Pillow answers to the four calls of [preprocess_image] in turn:
    open, grayscale, contrast doubled, sharpen. *)
Definition pillow_pipeline (E : environ) (f : gmap string node) (path : string)
    : outcome image :=
  match env_image_open E path (f !! path) with
  | Raise e => Raise e
  | Return opened =>
      match env_convert E opened "L" with
      | Raise e => Raise e
      | Return gray =>
          match env_contrast E gray 2 with
          | Raise e => Raise e
          | Return enhanced => env_filter E enhanced "SHARPEN"
          end
      end
  end.

(** The image that [extract_text] hands to the engine. *)
Definition image_for_engine (E : environ) (f : gmap string node) (path : string)
    (preprocess : bool) : outcome image :=
  if preprocess then pillow_pipeline E f path
  else env_image_open E path (f !! path).

(** All calls of a trace but the last one. *)
Definition but_last (evs : list event) : list event :=
  take (length evs - 1)%nat evs.

(** A string neither starts nor ends with a white-space character of
    ASCII. *)
Definition starts_with_space (s : string) : bool :=
  match s with
  | "" => false
  | String c _ => is_space c
  end.

Definition trimmed (s : string) : bool :=
  negb (starts_with_space s) && negb (starts_with_space (String.rev s)).

(** The same for the white space of the Unicode database: the bytes at
    the head of the string are a white-space character. *)
Definition space_at_head (backwards : bool) (s : string) : bool :=
  match s with
  | "" => false
  | String c0 t0 =>
      is_space c0
      || match t0 with
         | "" => false
         | String c1 t1 =>
             space2 backwards c0 c1
             || match t1 with
                | "" => false
                | String c2 _ => space3 backwards c0 c1 c2
                end
         end
  end.

Definition stripped (s : string) : bool :=
  negb (space_at_head false s) && negb (space_at_head true (String.rev s)).

(** ** Further sample hosts *)

Definition unidentified : exn :=
  Exn (OtherException "UnidentifiedImageError") "cannot identify image file 'scan.PNG'".

(** A host on which Pillow cannot read any file as an image. *)
Definition unreadable_host : environ :=
  {| env_getenv := env_getenv windows_host;
     env_isprintable := unicode_14_sample;
     env_linesep := CRLF;
     env_run := λ _ _, version_ok;
     env_image_open := λ _ _, Raise unidentified;
     env_convert := env_convert windows_host;
     env_contrast := env_contrast windows_host;
     env_filter := env_filter windows_host;
     env_image_to_string := env_image_to_string windows_host;
     env_open_w := λ _ _, None;
     env_write := λ _ _, None;
     env_close := λ _, None |}.

(** The calls that the locator may make over the candidates [cands]: the
    lookup of the user name, the existence test of a candidate that is not
    the bare name, and the version probe of the bare name under a timeout
    of 10. *)
Definition locator_call (cands : list string) (ev : event) : Prop :=
  match ev with
  | EvGetenv name _ => name = "USERNAME"
  | EvExists path _ => path ∈ cands ∧ path ≠ "tesseract"
  | EvRun argv timeout _ => argv = ["tesseract"; "--version"] ∧ timeout = 10
  | _ => False
  end.

(** A recognition call runs the command [cmd] with the configuration
    [cfg]; other calls are not concerned. *)
Definition recognition_uses (cmd cfg : string) (ev : event) : Prop :=
  match ev with
  | EvImageToString cmd' cfg' _ => cmd' = cmd ∧ cfg' = cfg
  | _ => True
  end.

(** A host whose engine frames its answer with white space from outside
    ASCII: a no-break space before the text, an em space after it. *)
Definition padding_host : environ :=
  {| env_getenv := env_getenv windows_host;
     env_isprintable := unicode_14_sample;
     env_linesep := CRLF;
     env_run := λ _ _, version_ok;
     env_image_open := env_image_open windows_host;
     env_convert := env_convert windows_host;
     env_contrast := env_contrast windows_host;
     env_filter := env_filter windows_host;
     env_image_to_string := λ _ _ _, Return (nbsp +:+ "TEST" +:+ em_space +:+ nl);
     env_open_w := λ _ _, None;
     env_write := λ _ _, None;
     env_close := λ _, None |}.

Definition permission_denied : exn :=
  Exn (OtherException "PermissionError") "[Errno 13] Permission denied: 'out.txt'".

(** A host that lets no file be opened for writing. *)
Definition read_only_host : environ :=
  {| env_getenv := env_getenv windows_host;
     env_isprintable := unicode_14_sample;
     env_linesep := CRLF;
     env_run := λ _ _, version_ok;
     env_image_open := env_image_open windows_host;
     env_convert := env_convert windows_host;
     env_contrast := env_contrast windows_host;
     env_filter := env_filter windows_host;
     env_image_to_string := env_image_to_string windows_host;
     env_open_w := λ _ _, Some permission_denied;
     env_write := λ _ _, None;
     env_close := λ _, None |}.

(** ** class TextExtractorApp

    The handlers of the window, above the backend.  The window is the
    part of the Tk state that the handlers read and write: the selected
    image, the text of the upload label, the content of the text widget
    and the cursor.  Message boxes and file dialogs are appended to a log
    of their own; what the user answers to a file dialog is given by the
    desktop.  Inside the handlers the Tk calls are taken not to fail, and
    [master.update()] to run no other handler.  The constructor sets up the
    top-level window before it builds the backend, and the widgets after
    it: whether the desktop accepts these calls is an answer of the
    desktop ([master.state('zoomed')], for one, is refused under X11). *)

Inductive dialog :=
  | ShowError (title message : string)      (* messagebox.showerror *)
  | ShowInfo (title message : string)       (* messagebox.showinfo *)
  | AskOpenFilename (answer : string)       (* filedialog.askopenfilename *)
  | AskSaveAsFilename (answer : string).    (* filedialog.asksaveasfilename *)

(** The Tk calls of the constructor. *)
Inductive tk_call :=
  | TkTitle (title : string)       (* master.title(title) *)
  | TkState (newstate : string)    (* master.state(newstate) *)
  | TkConfigure (bg : string)      (* master.configure(bg=bg) *)
  | TkCreateWidgets.               (* the labels, buttons and frames of create_widgets *)

(** The answers of the user to the two file dialogs (the empty string when
    the dialog is cancelled), [os.path.basename] of the platform, and the
    error with which Tk refuses a call of the constructor, if it does. *)
Record desktop := Desktop {
  ask_open : string;
  ask_save : string;
  basename : string → string;
  tk_refuses : tk_call → option exn
}.

(** A Tk call of the constructor: it raises when the desktop refuses it. *)
Definition tk (D : desktop) (c : tk_call) : M unit :=
  match tk_refuses D c with
  | Some e => raise e
  | None => ret ()
  end.

Definition is_message_box (d : dialog) : bool :=
  match d with
  | ShowError _ _ | ShowInfo _ _ => true
  | _ => false
  end.

Module TextExtractorApp.

Record t := Build {
  backend : HandwritingToTextBackend.t;
  current_image : option string;
  upload_label : string;
  text_display : string;
  cursor : string;
  dialogs : list dialog
}.

Definition with_current_image (v : option string) (w : t) : t :=
  {| backend := backend w; current_image := v; upload_label := upload_label w;
     text_display := text_display w; cursor := cursor w; dialogs := dialogs w |}.

Definition with_upload_label (v : string) (w : t) : t :=
  {| backend := backend w; current_image := current_image w; upload_label := v;
     text_display := text_display w; cursor := cursor w; dialogs := dialogs w |}.

Definition with_text_display (v : string) (w : t) : t :=
  {| backend := backend w; current_image := current_image w;
     upload_label := upload_label w; text_display := v; cursor := cursor w;
     dialogs := dialogs w |}.

Definition with_cursor (v : string) (w : t) : t :=
  {| backend := backend w; current_image := current_image w;
     upload_label := upload_label w; text_display := text_display w; cursor := v;
     dialogs := dialogs w |}.

Definition with_dialog (d : dialog) (w : t) : t :=
  {| backend := backend w; current_image := current_image w;
     upload_label := upload_label w; text_display := text_display w;
     cursor := cursor w; dialogs := dialogs w ++ [d] |}.

(** Statements of a handler: they read the desktop and the host, and
    change the window and the state of the backend. *)
Definition G (A : Type) : Type :=
  desktop → environ → t * state → outcome A * (t * state).

Definition gret {A} (a : A) : G A := λ _ _ s, (Return a, s).

Definition gbind {A B} (m : G A) (k : A → G B) : G B := λ D E s,
  match m D E s with
  | (Return a, s') => k a D E s'
  | (Raise e, s') => (Raise e, s')
  end.

Declare Scope gui_scope.
Delimit Scope gui_scope with gui.
Notation "x ← y ; z" := (gbind y (λ x, z))
  (at level 20, y at level 100, z at level 200, only parsing) : gui_scope.
Notation "x ;; z" := (gbind x (λ _, z))
  (at level 100, z at level 200, only parsing, right associativity) : gui_scope.
Local Open Scope gui_scope.

(** A call of the backend. *)
Definition call {A} (m : M A) : G A := λ _ E s,
  match m E (snd s) with
  | (r, st') => (r, (fst s, st'))
  end.

Definition self : G t := λ _ _ s, (Return (fst s), s).

Definition update (f : t → t) : G unit := λ _ _ s, (Return (), (f (fst s), snd s)).

(** [try: body  except Exception as e: handler e] *)
Definition gtry {A} (body : G A) (handler : exn → G A) : G A := λ D E s,
  match body D E s with
  | (Return a, s') => (Return a, s')
  | (Raise e, s') => handler e D E s'
  end.

(** [try: body  finally: last]: [last] runs however [body] ends; an error
    of [last] is the one that propagates. *)
Definition gfinally {A} (body : G A) (last : G unit) : G A := λ D E s,
  match body D E s with
  | (r, s1) =>
      match last D E s1 with
      | (Return _, s2) => (r, s2)
      | (Raise e, s2) => (Raise e, s2)
      end
  end.

Definition showerror (title message : string) : G unit :=
  update (with_dialog (ShowError title message)).

Definition showinfo (title message : string) : G unit :=
  update (with_dialog (ShowInfo title message)).

Definition askopenfilename : G string := λ D _ s,
  (Return (ask_open D), (with_dialog (AskOpenFilename (ask_open D)) (fst s), snd s)).

Definition asksaveasfilename : G string := λ D _ s,
  (Return (ask_save D), (with_dialog (AskSaveAsFilename (ask_save D)) (fst s), snd s)).

Definition os_path_basename (path : string) : G string := λ D _ s,
  (Return (basename D path), s).

(** [text_display.get('1.0', tk.END)]: the content and the line feed that
    a Tk text widget keeps at its end. *)
Definition text_display_get : G string := λ _ _ s,
  (Return (text_display (fst s) +:+ nl), s).

(** [text_display.delete('1.0', tk.END)] *)
Definition text_display_delete : G unit := update (with_text_display "").

(** [text_display.insert(tk.END, text)] *)
Definition text_display_insert (text : string) : G unit :=
  update (λ w, with_text_display (text_display w +:+ text) w).

(** The truth value of [self.current_image]. *)
Definition selected (v : option string) : bool :=
  match v with
  | Some path => truthy path
  | None => false
  end.

Definition no_image_label : string :=
  "🖼️ No image selected" +:+ nl +:+ "Supported formats: PNG, JPG, JPEG, BMP".

(** [TextExtractorApp(master)]: the window is titled, maximised and
    coloured, the backend is built without a hint, and [create_widgets]
    fills the window; the label and the text widget start as
    [create_widgets] makes them. *)
Definition __init__ (D : desktop) : M t :=
  (tk D (TkTitle "Handwriting to Text Converter");;
   tk D (TkState "zoomed");;
   tk D (TkConfigure "#000000");;
   b ← HandwritingToTextBackend.__init__ None;
   tk D TkCreateWidgets;;
   ret {| backend := b; current_image := None; upload_label := no_image_label;
          text_display := ""; cursor := ""; dialogs := [] |})%py.

Definition upload_image : G unit :=
  file_path ← askopenfilename;
  if truthy file_path then
    update (with_current_image (Some file_path));;
    name ← os_path_basename file_path;
    update (with_upload_label ("🖼️ Selected: " +:+ name))
  else
    update (with_current_image None).

Definition extract_text : G unit :=
  w ← self;
  if negb (selected (current_image w)) then
    showerror "Error" "Please select an image first!"
  else
    gfinally
      (gtry
         (update (with_cursor "wait");;
          w ← self;
          r ← call (HandwritingToTextBackend.process_image (backend w)
                      (default "" (current_image w)));
          let '(success, result) := r in
          if success : bool then
            text_display_delete;;
            text_display_insert result;;
            showinfo "Success" "Text extracted successfully!"
          else
            showerror "Error" ("Text extraction failed: " +:+ result))
         (λ e, showerror "Error" ("Unexpected error: " +:+ exn_msg e)))
      (update (with_cursor "")).

Definition save_text : G unit :=
  shown ← text_display_get;
  let text_content := strip shown in
  if negb (truthy text_content) then
    showerror "Error" "No text to save!"
  else
    file_path ← asksaveasfilename;
    if truthy file_path then
      r ← call (HandwritingToTextBackend.save_text text_content file_path);
      let '(success, message) := r in
      if success : bool then showinfo "Success" message
      else showerror "Error" message
    else gret ().

Definition clear_text : G unit := text_display_delete.

End TextExtractorApp.

(** A desktop of the sample hosts: the user picks the page, saves to
    out.txt; paths are split at the slash. *)
Fixpoint after_last_slash (s : string) : string :=
  match s with
  | "" => ""
  | String c t =>
      if contains_char "/"%char t then after_last_slash t
      else if Ascii.eqb c "/"%char then t else s
  end.

Definition picks (open save : string) : desktop :=
  {| ask_open := open; ask_save := save; basename := after_last_slash;
     tk_refuses := λ _, None |}.

(** A desktop under X11: Tk knows no state 'zoomed' there. *)
Definition not_zoomable : exn :=
  Exn (OtherException "TclError")
    ("bad argument " +:+ String dquote "zoomed"
     +:+ String dquote ": must be normal, iconic, or withdrawn").

Definition x11_desktop : desktop :=
  {| ask_open := ""; ask_save := ""; basename := after_last_slash;
     tk_refuses := λ c, match c with
                        | TkState "zoomed" => Some not_zoomable
                        | _ => None
                        end |}.

Definition fresh_window : TextExtractorApp.t :=
  {| TextExtractorApp.backend := backend;
     TextExtractorApp.current_image := None;
     TextExtractorApp.upload_label := TextExtractorApp.no_image_label;
     TextExtractorApp.text_display := "";
     TextExtractorApp.cursor := "";
     TextExtractorApp.dialogs := [] |}.

(** The calls on the top-level window with which the constructor starts,
    and the error of the first of [calls] that the desktop refuses. *)
Definition window_calls : list tk_call :=
  [TkTitle "Handwriting to Text Converter"; TkState "zoomed"; TkConfigure "#000000"].

Fixpoint first_refusal (D : desktop) (calls : list tk_call) : option exn :=
  match calls with
  | [] => None
  | c :: rest =>
      match tk_refuses D c with
      | Some e => Some e
      | None => first_refusal D rest
      end
  end.

(** The message boxes of the convert button. *)
Definition convert_box (d : dialog) : Prop :=
  d = ShowError "Error" "Please select an image first!"
  ∨ d = ShowInfo "Success" "Text extracted successfully!"
  ∨ d = ShowError "Error" "Text extraction failed: File not found"
  ∨ d = ShowError "Error" "Text extraction failed: Unsupported file format"
  ∨ ∃ reason,
      d = ShowError "Error"
            ("Text extraction failed: Text extraction failed: " +:+ reason).


(** The window after the sample page was selected. *)
Definition page_selected : TextExtractorApp.t :=
  {| TextExtractorApp.backend := backend;
     TextExtractorApp.current_image := Some "scan.PNG";
     TextExtractorApp.upload_label := "🖼️ Selected: scan.PNG";
     TextExtractorApp.text_display := "";
     TextExtractorApp.cursor := "";
     TextExtractorApp.dialogs := [] |}.

(** * Properties *)

(** ** Strings *)

Lemma ascii_lower_dot (c : ascii) :
  Ascii.eqb (ascii_lower c) "."%char = Ascii.eqb c "."%char.
Proof. by destruct c as [[] [] [] [] [] [] [] []]. Qed.

Lemma extension_None_lower (s : string) :
  extension s = None → extension (lower s) = None.
Proof.
  induction s as [|c t IH]; simpl; [done|].
  destruct (extension t) eqn:Ht; [done|].
  rewrite IH by done. rewrite ascii_lower_dot.
  by destruct (Ascii.eqb c "."%char).
Qed.

(** A string without a dot has none of the four suffixes. *)
Lemma endswith_no_dot (s suf : string) :
  extension s = None → extension suf ≠ None → endswith s suf = false.
Proof.
  intros Hs Hsuf. induction s as [|c t IH].
  - simpl. destruct suf; [done|]. simpl. done.
  - simpl in Hs. destruct (extension t) eqn:Ht; [done|].
    destruct (Ascii.eqb c "."%char) eqn:Hc; [done|].
    cbn [endswith].
    destruct (String.eqb (String c t) suf) eqn:Heq.
    + apply String.eqb_eq in Heq. subst suf. simpl in Hsuf.
      rewrite Ht, Hc in Hsuf. done.
    + by apply IH.
Qed.

Lemma extension_lower (s : string) :
  extension (lower s) = lower <$> extension s.
Proof.
  induction s as [|c t IH]; simpl; [done|].
  rewrite IH, ascii_lower_dot.
  destruct (extension t); simpl; [done|].
  by destruct (Ascii.eqb c "."%char).
Qed.

Lemma supported_extensions_eqb (x : string) :
  bool_decide (x ∈ supported_extensions)
  = String.eqb x "png" || String.eqb x "jpg" || String.eqb x "jpeg" || String.eqb x "bmp".
Proof.
  unfold supported_extensions.
  destruct (String.eqb_spec x "png") as [->|H1]; [done|].
  destruct (String.eqb_spec x "jpg") as [->|H2]; [done|].
  destruct (String.eqb_spec x "jpeg") as [->|H3]; [done|].
  destruct (String.eqb_spec x "bmp") as [->|H4]; [done|].
  apply bool_decide_eq_false. rewrite !elem_of_cons, elem_of_nil.
  intros [?|[?|[?|[?|[]]]]]; done.
Qed.

Lemma supported_extensions_no_dot (x : string) :
  bool_decide (x ∈ supported_extensions) = true → extension x = None.
Proof.
  intros H%bool_decide_eq_true. unfold supported_extensions in H.
  rewrite !elem_of_cons, elem_of_nil in H.
  destruct H as [->|[->|[->|[->|[]]]]]; reflexivity.
Qed.

(** One step of the suffix test: the whole string is a dot and a supported
    extension, or a tail passes the test. *)
Lemma supported_format_cons (c : ascii) (t : string) :
  HandwritingToTextBackend.supported_format (String c t)
  = (Ascii.eqb c "."%char && bool_decide (lower t ∈ supported_extensions))
    || HandwritingToTextBackend.supported_format t.
Proof.
  unfold HandwritingToTextBackend.supported_format, endswith_any.
  rewrite supported_extensions_eqb.
  cbn [lower existsb endswith String.eqb].
  rewrite ascii_lower_dot.
  destruct (Ascii.eqb c "."%char); cbn [andb orb].
  - destruct (String.eqb (lower t) "png"), (String.eqb (lower t) "jpg"),
      (String.eqb (lower t) "jpeg"), (String.eqb (lower t) "bmp");
      cbn [andb orb]; rewrite ?orb_true_r, ?orb_false_r; reflexivity.
  - rewrite !orb_false_r. reflexivity.
Qed.

(** The suffix test of the code is the extension test of the
    specification: the text after the last dot, lower-cased, is one of png,
    jpg, jpeg and bmp. *)
Lemma supported_format_extension (path : string) :
  HandwritingToTextBackend.supported_format path = has_supported_extension path.
Proof.
  induction path as [|c t IH]; [reflexivity|].
  rewrite supported_format_cons, IH.
  unfold has_supported_extension. simpl.
  destruct (extension t) as [e|] eqn:Ht.
  - destruct (bool_decide (lower t ∈ supported_extensions)) eqn:Hm.
    + apply supported_extensions_no_dot in Hm.
      rewrite extension_lower, Ht in Hm. done.
    + by rewrite andb_false_r.
  - rewrite orb_false_r. by destruct (Ascii.eqb c "."%char).
Qed.

(** ** The engine locator *)

Lemma state_eta (st : state) :
  {| fs := fs st; tesseract_cmd := tesseract_cmd st; trace := trace st |} = st.
Proof. by destruct st. Qed.

(** One round of the loop: one probe, and the command is set exactly when
    the candidate is accepted. *)
Lemma test_path_run (E : environ) (st : state) (path : string) :
  OCRProcessor.test_path path E st
  = (Return (accepts E (fs st) path),
     {| fs := fs st;
        tesseract_cmd := if accepts E (fs st) path then path else tesseract_cmd st;
        trace := trace st ++ [probe_event E (fs st) path] |}).
Proof.
  unfold OCRProcessor.test_path, accepts, probe_event, try_except, bind.
  destruct (String.eqb_spec path "tesseract") as [->|Hne].
  - unfold subprocess_run. simpl.
    destruct (env_run E ["tesseract"; "--version"] 10) as [r|e]; simpl; [|done].
    by destruct (returncode r =? 0).
  - unfold os_path_exists. simpl. by destruct (path_exists (fs st) path).
Qed.

Lemma test_paths_rejected (E : environ) (paths : list string) (st : state) :
  Forall (λ p, accepts E (fs st) p = false) paths →
  OCRProcessor.test_paths paths E st
  = (Return false,
     {| fs := fs st; tesseract_cmd := tesseract_cmd st;
        trace := trace st ++ map (probe_event E (fs st)) paths |}).
Proof.
  revert st. induction paths as [|p rest IH]; intros st Hrej.
  - simpl. unfold ret. by rewrite app_nil_r, state_eta.
  - apply Forall_cons in Hrej as [Hp Hrest].
    cbn [OCRProcessor.test_paths]. unfold bind at 1.
    rewrite test_path_run, Hp. rewrite IH by done. simpl.
    by rewrite <- app_assoc.
Qed.

Lemma test_paths_first_accepted (E : environ) (before : list string) (c : string)
    (after : list string) (st : state) :
  Forall (λ p, accepts E (fs st) p = false) before →
  accepts E (fs st) c = true →
  OCRProcessor.test_paths (before ++ c :: after) E st
  = (Return true,
     {| fs := fs st; tesseract_cmd := c;
        trace := trace st ++ map (probe_event E (fs st)) (before ++ [c]) |}).
Proof.
  revert st. induction before as [|p rest IH]; intros st Hrej Hacc.
  - cbn [app OCRProcessor.test_paths]. unfold bind at 1.
    by rewrite test_path_run, Hacc.
  - apply Forall_cons in Hrej as [Hp Hrest].
    cbn [app OCRProcessor.test_paths]. unfold bind at 1.
    rewrite test_path_run, Hp. rewrite IH by done. simpl.
    by rewrite <- app_assoc.
Qed.

Lemma possible_paths_order (username tesseract_path : option string) :
  OCRProcessor.possible_paths username tesseract_path
  = hint_candidates tesseract_path ++ install_locations username ++ ["tesseract"].
Proof.
  unfold OCRProcessor.possible_paths, hint_candidates.
  destruct tesseract_path as [p|]; [|done]. by destruct (truthy p).
Qed.

(** Either every candidate is rejected, or there is a first accepted one. *)
Lemma first_accepted_or_none (E : environ) (f : gmap string node) (l : list string) :
  Forall (λ p, accepts E f p = false) l
  ∨ ∃ before c after,
      l = before ++ c :: after
      ∧ Forall (λ p, accepts E f p = false) before
      ∧ accepts E f c = true.
Proof.
  induction l as [|p rest IH]; [by left|].
  destruct (accepts E f p) eqn:Hp.
  - right. exists [], p, rest. by repeat split.
  - destruct IH as [Hall|(before & c & after & -> & Hb & Hc)].
    + left. by constructor.
    + right. exists (p :: before), c, after. repeat split; [|done]. by constructor.
Qed.

Lemma init_run (E : environ) (st : state) (tesseract_path : option string) :
  OCRProcessor.__init__ tesseract_path E st
  = match OCRProcessor.test_paths
            (OCRProcessor.possible_paths (env_getenv E "USERNAME") tesseract_path) E
            (log (EvGetenv "USERNAME" (env_getenv E "USERNAME")) st) with
    | (Return true, st') => (Return {| OCRProcessor.config := "--oem 3 --psm 6" |}, st')
    | (Return false, st') =>
        (Raise (Exn ValueError
                  (OCRProcessor.not_found_message (env_isprintable E)
                     (OCRProcessor.possible_paths (env_getenv E "USERNAME") tesseract_path))),
         st')
    | (Raise e, st') => (Raise e, st')
    end.
Proof.
  unfold OCRProcessor.__init__, bind, os_getenv, unicode_isprintable. simpl.
  destruct (OCRProcessor.test_paths _ E _) as [[[]|] ?]; reflexivity.
Qed.

(** ** Occurrences in strings *)

Lemma app_cons (c : ascii) (s t : string) : String c s +:+ t = String c (s +:+ t).
Proof. reflexivity. Qed.

Lemma app_empty (t : string) : "" +:+ t = t.
Proof. reflexivity. Qed.

Lemma startswith_app (s b : string) : startswith (s +:+ b) s = true.
Proof.
  induction s as [|c s IH]; [by destruct b|].
  rewrite app_cons. simpl. by rewrite Ascii.eqb_refl.
Qed.

Lemma startswith_app_l (t s b : string) :
  startswith t s = true → startswith (t +:+ b) s = true.
Proof.
  revert t. induction s as [|a s IH]; intros t H; [by destruct (t +:+ b)|].
  destruct t as [|c t]; [done|]. rewrite app_cons. simpl in *.
  destruct (Ascii.eqb a c); [|done]. by apply IH.
Qed.

Lemma occurs_in_app_l (s t b : string) :
  occurs_in s t = true → occurs_in s (t +:+ b) = true.
Proof.
  induction t as [|c t IH]; intros H.
  - simpl in H. destruct s; [|done]. by destruct b.
  - cbn [occurs_in] in H. rewrite app_cons. cbn [occurs_in].
    destruct (startswith (String c t) s) eqn:Hs.
    + apply (startswith_app_l _ _ b) in Hs. rewrite app_cons in Hs. by rewrite Hs.
    + destruct (startswith (String c (t +:+ b)) s); [done|]. by apply IH.
Qed.

Lemma occurs_in_app_r (s a t : string) :
  occurs_in s t = true → occurs_in s (a +:+ t) = true.
Proof.
  intros H. induction a as [|c a IH]; [done|].
  rewrite app_cons. cbn [occurs_in]. rewrite IH.
  by destruct (startswith (String c (a +:+ t)) s).
Qed.

Lemma occurs_in_refl (s : string) : occurs_in s s = true.
Proof.
  destruct s as [|c s]; [done|]. cbn [occurs_in].
  pose proof (startswith_app (String c s) "") as H.
  assert (Hnil : ∀ x : string, x +:+ "" = x).
  { intros x. induction x as [|a x IHx]; [done|]. by rewrite app_cons, IHx. }
  rewrite Hnil in H. by rewrite H.
Qed.

Lemma occurs_in_join (sep : string) (f : string → string) (c : string) (l : list string) :
  c ∈ l → occurs_in (f c) (join sep (map f l)) = true.
Proof.
  induction l as [|x rest IH]; intros Hin; [by apply elem_of_nil in Hin|].
  apply elem_of_cons in Hin as [->|Hin].
  - destruct rest as [|y rest]; simpl; [apply occurs_in_refl|].
    apply occurs_in_app_l, occurs_in_refl.
  - specialize (IH Hin). destruct rest as [|y rest]; [by apply elem_of_nil in Hin|].
    change (join sep (map f (x :: y :: rest)))
      with (f x +:+ sep +:+ join sep (map f (y :: rest))).
    by do 2 apply occurs_in_app_r.
Qed.

(** The message of the failed locator names every candidate. *)
Lemma not_found_message_lists (printable : N → bool) (paths : list string) (c : string) :
  c ∈ paths →
  occurs_in (repr_str printable c) (OCRProcessor.not_found_message printable paths) = true.
Proof.
  intros Hin. unfold OCRProcessor.not_found_message, repr_list.
  do 6 apply occurs_in_app_r. apply occurs_in_app_l.
  by apply (occurs_in_join ", " (repr_str printable)).
Qed.

(** ** Claims on the engine locator *)

(** C2.  [OCRProcessor.__init__] probes the candidates in the fixed order
    hint (when given), install locations, bare command name.  When [c] is
    the first candidate of that list that passes its test (existence for a
    path, the version probe under a timeout of 10 for the bare name), the
    processor is built with [c] as the engine command, and the calls made
    are the lookup of the user name and one probe for each candidate up to
    and including [c]: no candidate after [c] is evaluated. *)
Theorem locator_stops_at_first_accepted
    (E : environ) (st : state) (tesseract_path : option string)
    (before : list string) (c : string) (after : list string) :
  hint_candidates tesseract_path
    ++ install_locations (env_getenv E "USERNAME") ++ ["tesseract"]
  = before ++ c :: after →
  Forall (λ p, accepts E (fs st) p = false) before →
  accepts E (fs st) c = true →
  OCRProcessor.__init__ tesseract_path E st
  = (Return {| OCRProcessor.config := "--oem 3 --psm 6" |},
     {| fs := fs st;
        tesseract_cmd := c;
        trace := trace st
                 ++ EvGetenv "USERNAME" (env_getenv E "USERNAME")
                 :: map (probe_event E (fs st)) (before ++ [c]) |}).
Proof.
  intros Hlist Hrej Hacc.
  rewrite init_run, possible_paths_order, Hlist.
  rewrite test_paths_first_accepted by done.
  cbn [log fs trace tesseract_cmd]. by rewrite <- app_assoc.
Qed.

(** C9.  When no candidate is accepted, [OCRProcessor.__init__] raises a
    [ValueError] after probing every candidate, its message ends with the
    list of the candidates, written as [repr] writes a list of [str] under
    the Unicode database of the interpreter, and so names each of them,
    and the engine command is left as it was.  Whenever [__init__] does
    return a processor, the engine command is a candidate that passed its
    test. *)
Theorem locator_fails_without_candidate
    (E : environ) (st : state) (tesseract_path : option string) :
  (Forall (λ p, accepts E (fs st) p = false)
     (OCRProcessor.possible_paths (env_getenv E "USERNAME") tesseract_path) →
   OCRProcessor.__init__ tesseract_path E st
   = (Raise (Exn ValueError
        ("Tesseract not found! Please install Tesseract-OCR from:" +:+ nl
         +:+ "https://github.com/UB-Mannheim/tesseract/wiki" +:+ nl
         +:+ "Tried paths: "
         +:+ repr_list (env_isprintable E)
               (OCRProcessor.possible_paths (env_getenv E "USERNAME") tesseract_path))),
      {| fs := fs st;
         tesseract_cmd := tesseract_cmd st;
         trace := trace st
                  ++ EvGetenv "USERNAME" (env_getenv E "USERNAME")
                  :: map (probe_event E (fs st))
                       (OCRProcessor.possible_paths (env_getenv E "USERNAME")
                          tesseract_path) |})
   ∧ ∀ c, c ∈ OCRProcessor.possible_paths (env_getenv E "USERNAME") tesseract_path →
          occurs_in (repr_str (env_isprintable E) c)
            (OCRProcessor.not_found_message (env_isprintable E)
               (OCRProcessor.possible_paths (env_getenv E "USERNAME") tesseract_path))
          = true)
  ∧ (∀ self st',
       OCRProcessor.__init__ tesseract_path E st = (Return self, st') →
       ∃ c, c ∈ OCRProcessor.possible_paths (env_getenv E "USERNAME") tesseract_path
            ∧ accepts E (fs st) c = true
            ∧ tesseract_cmd st' = c).
Proof.
  split.
  - intros Hrej. split; [|apply not_found_message_lists].
    rewrite init_run. rewrite test_paths_rejected by done.
    cbn [log fs trace tesseract_cmd]. by rewrite <- app_assoc.
  - intros self st' Hrun. rewrite init_run in Hrun.
    destruct (first_accepted_or_none E (fs st)
                (OCRProcessor.possible_paths (env_getenv E "USERNAME") tesseract_path))
      as [Hrej|(before & c & after & Hlist & Hrej & Hacc)].
    + rewrite test_paths_rejected in Hrun by done. done.
    + rewrite Hlist in Hrun |- *.
      rewrite test_paths_first_accepted in Hrun by done.
      exists c. split; [|split; [done|]].
      * apply elem_of_app. right. by left.
      * by inversion Hrun.
Qed.

(** ** The OCR invoker *)

(** The test of the engine command, case by case: the reference is not
    found; the probe raises (a timeout has a message of its own); the probe
    exits with another code than 0; the probe exits with 0. *)
Lemma test_tesseract_cmd_run (E : environ) (st : state) :
  OCRProcessor.test_tesseract_cmd E st
  = let cmd := tesseract_cmd st in
    let st1 := log (EvExists cmd (path_exists (fs st) cmd)) st in
    let st2 := log (EvRun [cmd; "--version"] 5 (env_run E [cmd; "--version"] 5)) st1 in
    if engine_found (fs st) cmd then
      match env_run E [cmd; "--version"] 5 with
      | Return cp =>
          if returncode cp =? 0 then (Return (), st2)
          else (Raise (Exn ValueError
                  ("Tesseract validation failed: Tesseract test failed: " +:+ stderr cp)),
                st2)
      | Raise e =>
          if is_TimeoutExpired e
          then (Raise (Exn ValueError "Tesseract test timed out"), st2)
          else (Raise (Exn ValueError ("Tesseract validation failed: " +:+ exn_msg e)), st2)
      end
    else (Raise (Exn ValueError
            ("Tesseract validation failed: Tesseract executable not found at: " +:+ cmd)),
          st1).
Proof.
  unfold OCRProcessor.test_tesseract_cmd, try_except, bind, get_tesseract_cmd,
    os_path_exists, subprocess_run, engine_found, raise, ret.
  cbn [log fs tesseract_cmd trace].
  destruct (path_exists (fs st) (tesseract_cmd st) || String.eqb (tesseract_cmd st) "tesseract");
    [|done].
  destruct (env_run E [tesseract_cmd st; "--version"] 5) as [cp|e]; cbn.
  - by destruct (returncode cp =? 0).
  - by destruct (is_TimeoutExpired e).
Qed.

Lemma endswith_refl (s : string) : endswith s s = true.
Proof. destruct s; simpl; [done|]. by rewrite Ascii.eqb_refl, String.eqb_refl. Qed.

Lemma endswith_app_r (a t s : string) :
  endswith t s = true → endswith (a +:+ t) s = true.
Proof.
  intros H. induction a as [|c a IH]; [done|].
  rewrite app_cons. cbn [endswith].
  by destruct (String.eqb (String c (a +:+ t)) s).
Qed.

Lemma endswith_app (a s : string) : endswith (a +:+ s) s = true.
Proof. apply endswith_app_r, endswith_refl. Qed.

(** Symbolic execution of [extract_text]: every path through the function,
    with the answers of the host as hypotheses. *)
Ltac unfold_extract_text :=
  unfold OCRProcessor.extract_text, OCRProcessor.extract_text_try,
    OCRProcessor.preprocess_image, try_except, bind, raise, ret, os_path_exists,
    Image_open, img_convert, Contrast_enhance, img_filter, image_to_string in *.

Ltac step_validation :=
  match goal with
  | H : context [OCRProcessor.test_tesseract_cmd _ _] |- _ =>
      rewrite test_tesseract_cmd_run in H; cbv zeta in H
  end.

Ltac run_extract_text :=
  unfold_extract_text;
  repeat (first [ step_validation | case_match ]; simplify_eq);
  cbn [log fs tesseract_cmd trace] in *.

Ltac explicit_trace :=
  eexists; split;
  [ rewrite <- ?app_assoc; cbn [app]; first [ reflexivity | symmetry; apply app_nil_r ] | ].

Ltac each_event H :=
  repeat (apply elem_of_cons in H as [->|H]); [ .. | by apply elem_of_nil in H ].

Ltac use_answers H :=
  cbn [event_exn outcome_exn probe_timed_out is_recognition] in H;
  repeat match goal with
         | Heq : ?x = _ |- _ =>
             tryif constr_eq Heq H then fail else rewrite Heq in H
         end;
  cbn [event_exn outcome_exn probe_timed_out is_recognition] in H.

Ltac use_answers_goal :=
  repeat match goal with Heq : ?x = _ |- context [?x] => rewrite Heq end.

(** The prefix of an explicit trace before its last three calls. *)
Ltac find_prefix :=
  match goal with
  | |- ∃ evs0 _ _, ?l = _ ∧ _ =>
      exists (take (length l - 3)%nat l); cbn [length Nat.sub take]
  end.

(** Every failed call of a run of [extract_text] ends the run with the
    uniform error. *)
Lemma extract_text_failed_calls
    (E : environ) (self : OCRProcessor.t) (image_path : string) (preprocess : bool)
    (st : state) (r : outcome string) (st' : state) :
  OCRProcessor.extract_text self image_path preprocess E st = (r, st') →
  ∃ evs,
    trace st' = trace st ++ evs
    ∧ ∀ ev c, ev ∈ evs → event_exn ev = Some c →
        ∃ e, r = Raise e
             ∧ exn_class_of e = ValueError
             ∧ startswith (exn_msg e) "Text extraction failed: " = true
             ∧ if probe_timed_out ev
               then exn_msg e = "Text extraction failed: Tesseract test timed out"
               else endswith (exn_msg e) (exn_msg c) = true.
Proof.
  intros H. run_extract_text.
  all: explicit_trace.
  all: intros ev c Hin Hc.
  all: try (by apply elem_of_nil in Hin).
  all: each_event Hin.
  all: use_answers Hc; simplify_eq.
  all: eexists; split; [reflexivity|]; split; [reflexivity|];
    split; [apply startswith_app|].
  all: cbn [probe_timed_out exn_msg]; use_answers_goal.
  all: first [ reflexivity | by repeat apply endswith_app_r; apply endswith_refl ].
Qed.

(** What [extract_text] raises is its uniform error. *)
Lemma extract_text_raises
    (E : environ) (self : OCRProcessor.t) (image_path : string) (preprocess : bool)
    (st : state) (e : exn) (st' : state) :
  OCRProcessor.extract_text self image_path preprocess E st = (Raise e, st') →
  ∃ m, e = Exn ValueError ("Text extraction failed: " +:+ m).
Proof.
  unfold OCRProcessor.extract_text, try_except, raise. intros H.
  destruct (OCRProcessor.extract_text_try self image_path preprocess E st)
    as [[text|cause] st1]; [done|].
  inversion H. by eexists.
Qed.

(** C3, as amended.  Whenever [extract_text] raises, it raises a
    [ValueError] whose message is "Text extraction failed: " followed by the
    message of the exception that left the body of its [try].  No failed
    call is swallowed: if a call of the run ended with an exception [c],
    then [extract_text] raised that uniform error, and its message ends
    with the message of [c], except when the call is a version probe that
    timed out, where the message is the fixed text
    "Text extraction failed: Tesseract test timed out". *)
Theorem extract_text_uniform_failure
    (E : environ) (self : OCRProcessor.t) (image_path : string) (preprocess : bool)
    (st : state) (r : outcome string) (st' : state) :
  OCRProcessor.extract_text self image_path preprocess E st = (r, st') →
  (∀ e, r = Raise e →
     exn_class_of e = ValueError
     ∧ ∃ cause,
         OCRProcessor.extract_text_try self image_path preprocess E st = (Raise cause, st')
         ∧ exn_msg e = "Text extraction failed: " +:+ exn_msg cause)
  ∧ ∃ evs,
      trace st' = trace st ++ evs
      ∧ ∀ ev c, ev ∈ evs → event_exn ev = Some c →
          ∃ e, r = Raise e
               ∧ exn_class_of e = ValueError
               ∧ startswith (exn_msg e) "Text extraction failed: " = true
               ∧ if probe_timed_out ev
                 then exn_msg e = "Text extraction failed: Tesseract test timed out"
                 else endswith (exn_msg e) (exn_msg c) = true.
Proof.
  intros H. split; [|by eapply extract_text_failed_calls].
  intros e ->. unfold OCRProcessor.extract_text, try_except, raise in H.
  destruct (OCRProcessor.extract_text_try self image_path preprocess E st)
    as [[text|cause] st1]; [done|].
  inversion H; subst. split; [done|]. by exists cause.
Qed.

(** The test of the engine and the recognition call, case by case. *)
Ltac run_validation E st self img :=
  rewrite test_tesseract_cmd_run; cbv zeta; unfold engine_runnable, log;
  cbn [fs tesseract_cmd trace];
  destruct (engine_found (fs st) (tesseract_cmd st));
    cbn [andb fs tesseract_cmd trace]; [|by rewrite <- !app_assoc];
  destruct (env_run E [tesseract_cmd st; "--version"] 5) as [cp|e];
    cbn [fs tesseract_cmd trace];
  [ destruct (returncode cp =? 0); cbn [fs tesseract_cmd trace];
    [ destruct (env_image_to_string E (tesseract_cmd st) img (OCRProcessor.config self));
      by rewrite <- !app_assoc
    | by rewrite <- !app_assoc ]
  | destruct (is_TimeoutExpired e); by rewrite <- !app_assoc ].

(** C8.  Before the recognition call, [extract_text] tests the engine
    command again.  Once the image is obtained, its next calls are the
    existence test of the command and, when the command is found (it
    exists, or it is the bare name), the version probe under a timeout of
    5.  When the command is not found, the probe raises, times out, or
    exits with another code than 0, [extract_text] raises its uniform
    error with a message that tells which, and makes no further call; only
    when the probe exits with 0 does the recognition call follow, as the
    last call, and its answer, stripped, is the result.  In every run a
    recognition call is the last call and comes right after a successful
    test, and an engine that is not runnable means the uniform error
    without any recognition call.  The test itself, the inner [try] of
    [extract_text], has the same cases. *)
Theorem extract_text_revalidates_engine
    (E : environ) (st : state) (self : OCRProcessor.t) (image_path : string)
    (preprocess : bool) :
  (∀ img,
     image_path ≠ "" →
     path_exists (fs st) image_path = true →
     image_for_engine E (fs st) image_path preprocess = Return img →
     ∃ evs0,
       Forall (λ ev, is_engine_call ev = false) evs0
       ∧ OCRProcessor.extract_text self image_path preprocess E st
         = (if engine_found (fs st) (tesseract_cmd st) then
              match env_run E [tesseract_cmd st; "--version"] 5 with
              | Return cp =>
                  if returncode cp =? 0 then
                    match env_image_to_string E (tesseract_cmd st) img
                            (OCRProcessor.config self) with
                    | Return out => Return (strip out)
                    | Raise e =>
                        Raise (Exn ValueError ("Text extraction failed: " +:+ exn_msg e))
                    end
                  else
                    Raise (Exn ValueError
                      ("Text extraction failed: Tesseract validation failed: "
                       +:+ "Tesseract test failed: " +:+ stderr cp))
              | Raise e =>
                  if is_TimeoutExpired e
                  then Raise (Exn ValueError
                         "Text extraction failed: Tesseract test timed out")
                  else Raise (Exn ValueError
                         ("Text extraction failed: Tesseract validation failed: "
                          +:+ exn_msg e))
              end
            else
              Raise (Exn ValueError
                ("Text extraction failed: Tesseract validation failed: "
                 +:+ "Tesseract executable not found at: " +:+ tesseract_cmd st)),
            {| fs := fs st;
               tesseract_cmd := tesseract_cmd st;
               trace :=
                 trace st ++ evs0
                 ++ EvExists (tesseract_cmd st) (path_exists (fs st) (tesseract_cmd st))
                 :: (if engine_found (fs st) (tesseract_cmd st)
                     then EvRun [tesseract_cmd st; "--version"] 5
                            (env_run E [tesseract_cmd st; "--version"] 5)
                          :: (if engine_runnable E (fs st) (tesseract_cmd st)
                              then [EvImageToString (tesseract_cmd st)
                                      (OCRProcessor.config self)
                                      (env_image_to_string E (tesseract_cmd st) img
                                         (OCRProcessor.config self))]
                              else [])
                     else []) |}))
  ∧ (∀ r st',
       OCRProcessor.extract_text self image_path preprocess E st = (r, st') →
       ∃ evs,
         trace st' = trace st ++ evs
         ∧ (∀ ev, ev ∈ evs → is_recognition ev = true →
              engine_runnable E (fs st) (tesseract_cmd st) = true
              ∧ ∃ evs0 cp res,
                  evs = evs0
                        ++ [EvExists (tesseract_cmd st)
                              (path_exists (fs st) (tesseract_cmd st));
                            EvRun [tesseract_cmd st; "--version"] 5 (Return cp);
                            EvImageToString (tesseract_cmd st) (OCRProcessor.config self) res]
                  ∧ returncode cp = 0
                  ∧ Forall (λ ev0, is_recognition ev0 = false) evs0)
         ∧ (engine_runnable E (fs st) (tesseract_cmd st) = false →
              Forall (λ ev, is_recognition ev = false) evs
              ∧ ∃ e, r = Raise e
                     ∧ exn_class_of e = ValueError
                     ∧ startswith (exn_msg e) "Text extraction failed: " = true))
  ∧ OCRProcessor.test_tesseract_cmd E st
    = (if engine_found (fs st) (tesseract_cmd st) then
         match env_run E [tesseract_cmd st; "--version"] 5 with
         | Return cp =>
             if returncode cp =? 0 then Return ()
             else Raise (Exn ValueError
                    ("Tesseract validation failed: Tesseract test failed: " +:+ stderr cp))
         | Raise e =>
             if is_TimeoutExpired e
             then Raise (Exn ValueError "Tesseract test timed out")
             else Raise (Exn ValueError ("Tesseract validation failed: " +:+ exn_msg e))
         end
       else Raise (Exn ValueError
              ("Tesseract validation failed: Tesseract executable not found at: "
               +:+ tesseract_cmd st)),
       {| fs := fs st;
          tesseract_cmd := tesseract_cmd st;
          trace := trace st
                   ++ EvExists (tesseract_cmd st) (path_exists (fs st) (tesseract_cmd st))
                   :: (if engine_found (fs st) (tesseract_cmd st)
                       then [EvRun [tesseract_cmd st; "--version"] 5
                               (env_run E [tesseract_cmd st; "--version"] 5)]
                       else []) |}).
Proof.
  split; [|split].
  - intros img Hne Hex Himg. apply String.eqb_neq in Hne.
    unfold image_for_engine, pillow_pipeline in Himg.
    destruct preprocess.
    + destruct (env_image_open E image_path (fs st !! image_path)) as [opened|?] eqn:Ho;
        [|discriminate Himg].
      destruct (env_convert E opened "L") as [gray|?] eqn:Hg; [|discriminate Himg].
      destruct (env_contrast E gray 2) as [enhanced|?] eqn:Hc; [|discriminate Himg].
      exists [EvExists image_path true; EvImageOpen image_path (Return opened);
              EvConvert "L" (Return gray); EvContrast 2 (Return enhanced);
              EvFilter "SHARPEN" (Return img)].
      split; [repeat constructor|].
      unfold_extract_text. cbv beta zeta. cbn [log fs tesseract_cmd trace].
      rewrite Hne, Hex. cbv beta iota zeta. cbn [negb log fs tesseract_cmd trace].
      rewrite Ho. cbv beta iota zeta. cbn [log fs tesseract_cmd trace].
      rewrite Hg. cbv beta iota zeta. cbn [log fs tesseract_cmd trace].
      rewrite Hc. cbv beta iota zeta. cbn [log fs tesseract_cmd trace].
      rewrite Himg. cbv beta iota zeta. cbn [log fs tesseract_cmd trace].
      run_validation E st self img.
    + exists [EvExists image_path true; EvImageOpen image_path (Return img)].
      split; [repeat constructor|].
      unfold_extract_text. cbv beta zeta. cbn [log fs tesseract_cmd trace].
      rewrite Hne, Hex. cbv beta iota zeta. cbn [negb log fs tesseract_cmd trace].
      rewrite Himg. cbv beta iota zeta. cbn [log fs tesseract_cmd trace].
      run_validation E st self img.
  - intros r st' H.
    run_extract_text.
    all: explicit_trace.
    all: split;
      [ intros ev Hin Hrec;
        first [ by apply elem_of_nil in Hin | each_event Hin ];
        use_answers Hrec; try discriminate Hrec;
        (split;
         [ unfold engine_runnable; use_answers_goal; reflexivity
         | find_prefix; do 2 eexists; (split; [reflexivity|]);
           (split; [ by apply Z.eqb_eq | repeat constructor ]) ])
      | intros Hnot; unfold engine_runnable in Hnot; use_answers Hnot;
        try discriminate Hnot;
        (split; [ repeat constructor | ]);
        eexists; (split; [reflexivity|]); (split; [reflexivity|]);
        apply startswith_app ].
  - rewrite test_tesseract_cmd_run. cbv zeta. cbn [log fs tesseract_cmd trace].
    destruct (engine_found (fs st) (tesseract_cmd st)); [|done].
    destruct (env_run E [tesseract_cmd st; "--version"] 5) as [cp|e].
    + destruct (returncode cp =? 0); unfold log; simpl; by rewrite <- app_assoc.
    + destruct (is_TimeoutExpired e); unfold log; simpl; by rewrite <- app_assoc.
Qed.

(** C2, an instance: the hint names no file, the engine is installed in
    the first install location and is on the search path as well.  The
    install location is accepted, and neither the later locations nor the
    bare name are probed. *)
Lemma locator_stops_at_first_accepted_witness :
  OCRProcessor.__init__ (Some "D:\ocr\tesseract.exe") windows_host installed
  = (Return processor,
     {| fs := fs installed;
        tesseract_cmd := tesseract_exe;
        trace := [EvGetenv "USERNAME" (Some "ada");
                  EvExists "D:\ocr\tesseract.exe" false;
                  EvExists tesseract_exe true] |}).
Proof.
  apply (locator_stops_at_first_accepted windows_host installed
           (Some "D:\ocr\tesseract.exe") ["D:\ocr\tesseract.exe"] tesseract_exe
           [ "C:\Program Files (x86)\Tesseract-OCR\tesseract.exe";
             "C:\Users\ada\AppData\Local\Programs\Tesseract-OCR\tesseract.exe";
             "tesseract" ]).
  - reflexivity.
  - repeat constructor.
  - reflexivity.
Defined.

(** C9, instances: nothing is installed and the bare name cannot be run;
    the same with a hint that holds a no-break space, which the message
    shows as an escape. *)
Lemma locator_fails_without_candidate_witness :
  Forall (λ p, accepts no_engine_host (fs bare) p = false)
    (OCRProcessor.possible_paths (Some "ada") None)
  ∧ fst (OCRProcessor.__init__ None no_engine_host bare)
    = Raise (Exn ValueError
        ("Tesseract not found! Please install Tesseract-OCR from:" +:+ nl
         +:+ "https://github.com/UB-Mannheim/tesseract/wiki" +:+ nl
         +:+ "Tried paths: "
         +:+ "['C:\\Program Files\\Tesseract-OCR\\tesseract.exe', "
         +:+ "'C:\\Program Files (x86)\\Tesseract-OCR\\tesseract.exe', "
         +:+ "'C:\\Users\\ada\\AppData\\Local\\Programs\\Tesseract-OCR\\tesseract.exe', "
         +:+ "'tesseract']"))
  ∧ fst (OCRProcessor.__init__ (Some ("my" +:+ nbsp +:+ "ocr")) no_engine_host bare)
    = Raise (Exn ValueError
        ("Tesseract not found! Please install Tesseract-OCR from:" +:+ nl
         +:+ "https://github.com/UB-Mannheim/tesseract/wiki" +:+ nl
         +:+ "Tried paths: "
         +:+ "['my\xa0ocr', "
         +:+ "'C:\\Program Files\\Tesseract-OCR\\tesseract.exe', "
         +:+ "'C:\\Program Files (x86)\\Tesseract-OCR\\tesseract.exe', "
         +:+ "'C:\\Users\\ada\\AppData\\Local\\Programs\\Tesseract-OCR\\tesseract.exe', "
         +:+ "'tesseract']")).
Proof.
  assert (Hrej : Forall (λ p, accepts no_engine_host (fs bare) p = false)
                   (OCRProcessor.possible_paths (Some "ada") None))
    by (repeat constructor).
  split; [exact Hrej|]. split.
  - destruct (locator_fails_without_candidate no_engine_host bare None) as [Hfail _].
    destruct (Hfail Hrej) as [Hrun _]. rewrite Hrun. reflexivity.
  - destruct (locator_fails_without_candidate no_engine_host bare
                (Some ("my" +:+ nbsp +:+ "ocr"))) as [Hfail _].
    destruct (Hfail ltac:(repeat constructor)) as [Hrun _]. rewrite Hrun. reflexivity.
Defined.

(** ** The orchestration facade *)

(** [process_image], check by check. *)
Lemma process_image_run
    (E : environ) (st : state) (self : HandwritingToTextBackend.t) (image_path : string) :
  HandwritingToTextBackend.process_image self image_path E st
  = if negb (truthy image_path) then (Return (false, "No image path provided"), st)
    else if negb (path_exists (fs st) image_path)
    then (Return (false, "File not found"), log (EvExists image_path false) st)
    else if negb (has_supported_extension image_path)
    then (Return (false, "Unsupported file format"), log (EvExists image_path true) st)
    else delegate (OCRProcessor.extract_text (HandwritingToTextBackend.ocr self)
                     image_path true E (log (EvExists image_path true) st)).
Proof.
  unfold HandwritingToTextBackend.process_image.
  destruct (truthy image_path); [|done]. cbn [negb].
  unfold bind at 1. unfold os_path_exists at 1.
  destruct (path_exists (fs st) image_path); [|done]. cbn [negb].
  rewrite <- supported_format_extension.
  destruct (HandwritingToTextBackend.supported_format image_path); [|done]. cbn [negb].
  unfold try_except, bind, ret, delegate.
  by destruct (OCRProcessor.extract_text _ image_path true E _) as [[text|e] st1].
Qed.

(** C1, as amended.  For every existing path, [process_image] delegates to
    the invoker when the extension, read case-insensitively, is one of png,
    jpg, jpeg and bmp, and returns (False, "Unsupported file format")
    otherwise, having made no call but the existence test. *)
Theorem process_image_format_gate
    (E : environ) (st : state) (self : HandwritingToTextBackend.t) (image_path : string) :
  path_exists (fs st) image_path = true →
  HandwritingToTextBackend.process_image self image_path E st
  = if has_supported_extension image_path
    then delegate (OCRProcessor.extract_text (HandwritingToTextBackend.ocr self)
                     image_path true E (log (EvExists image_path true) st))
    else (Return (false, "Unsupported file format"),
          {| fs := fs st; tesseract_cmd := tesseract_cmd st;
             trace := trace st ++ [EvExists image_path true] |}).
Proof.
  intros Hex. rewrite process_image_run, Hex.
  apply andb_true_iff in Hex as [-> _]. cbn [negb].
  by destruct (has_supported_extension image_path).
Qed.

(** C6.  For every non-empty path that does not exist, [process_image]
    returns (False, "File not found"); the existence test is the only call
    it makes, so the file is not opened and the engine is not run. *)
Theorem process_image_missing_file
    (E : environ) (st : state) (self : HandwritingToTextBackend.t) (image_path : string) :
  image_path ≠ "" →
  path_exists (fs st) image_path = false →
  ∃ evs,
    HandwritingToTextBackend.process_image self image_path E st
    = (Return (false, "File not found"),
       {| fs := fs st; tesseract_cmd := tesseract_cmd st; trace := trace st ++ evs |})
    ∧ evs = [EvExists image_path false]
    ∧ Forall (λ ev, opens_or_invokes ev = false) evs.
Proof.
  intros Hne Hmiss. exists [EvExists image_path false].
  rewrite process_image_run, Hmiss.
  destruct image_path; [done|]. repeat split. by repeat constructor.
Qed.

(** C10.  The checks of [process_image] run in the order emptiness,
    existence, extension.  An empty path is refused before the filesystem
    is asked; a non-empty path that does not exist is reported as
    "File not found" whatever its extension; only a path that exists can be
    reported as "Unsupported file format". *)
Theorem process_image_check_order
    (E : environ) (st : state) (self : HandwritingToTextBackend.t) (image_path : string) :
  (image_path = "" →
   HandwritingToTextBackend.process_image self image_path E st
   = (Return (false, "No image path provided"), st))
  ∧ (image_path ≠ "" → path_exists (fs st) image_path = false →
     ∀ supported, has_supported_extension image_path = supported →
       fst (HandwritingToTextBackend.process_image self image_path E st)
       = Return (false, "File not found"))
  ∧ (fst (HandwritingToTextBackend.process_image self image_path E st)
     = Return (false, "Unsupported file format") →
     path_exists (fs st) image_path = true
     ∧ has_supported_extension image_path = false).
Proof.
  rewrite process_image_run. split; [|split].
  - by intros ->.
  - intros Hne Hmiss supported _. rewrite Hmiss. by destruct image_path.
  - destruct (truthy image_path), (path_exists (fs st) image_path); try done.
    cbn [negb]. destruct (has_supported_extension image_path); [|done].
    cbn [negb]. unfold delegate.
    destruct (OCRProcessor.extract_text _ _ _ _ _) as [[text|e] st1] eqn:Hrun; [done|].
    apply extract_text_raises in Hrun as [m ->]. cbn [fst exn_msg].
    intros Heq. inversion Heq.
Qed.

(** ** Saving the text *)

Ltac run_save_text :=
  unfold HandwritingToTextBackend.save_text, with_open_w, closing, try_except, bind,
    ret, file_open_w, file_write, file_close in *;
  cbv zeta in *;
  repeat (case_match; simplify_eq);
  cbn [log with_fs fs tesseract_cmd trace] in *.

(** C4.  [process_image] and [save_text] are total on strings: under every
    environment and from every state they return a pair of a flag and a
    message, never an exception; and when a call of the run failed, the
    flag is False. *)
Theorem orchestration_is_total (E : environ) (st : state) :
  (∀ self image_path, ∃ ok msg st' evs,
      HandwritingToTextBackend.process_image self image_path E st = (Return (ok, msg), st')
      ∧ trace st' = trace st ++ evs
      ∧ ∀ ev c, ev ∈ evs → event_exn ev = Some c → ok = false)
  ∧ (∀ text output_path, ∃ ok msg st' evs,
      HandwritingToTextBackend.save_text text output_path E st = (Return (ok, msg), st')
      ∧ trace st' = trace st ++ evs
      ∧ ∀ ev c, ev ∈ evs → event_exn ev = Some c → ok = false).
Proof.
  split.
  - intros self image_path. rewrite process_image_run.
    destruct (truthy image_path); cbn [negb].
    2: { exists false, "No image path provided", st, [].
         split; [done|]. split; [by rewrite app_nil_r|].
         intros ev c Hin. by apply elem_of_nil in Hin. }
    destruct (path_exists (fs st) image_path); cbn [negb].
    2: { exists false, "File not found", (log (EvExists image_path false) st),
           [EvExists image_path false].
         split; [done|]. split; [done|].
         intros ev c Hin Hc. apply list_elem_of_singleton in Hin as ->. done. }
    destruct (has_supported_extension image_path); cbn [negb].
    2: { exists false, "Unsupported file format", (log (EvExists image_path true) st),
           [EvExists image_path true].
         split; [done|]. split; [done|].
         intros ev c Hin Hc. apply list_elem_of_singleton in Hin as ->. done. }
    destruct (OCRProcessor.extract_text _ image_path true E _) as [r st1] eqn:Hrun.
    destruct (extract_text_failed_calls _ _ _ _ _ _ _ Hrun) as (evs & Htrace & Hfail).
    cbn [log trace] in Htrace. rewrite <- app_assoc in Htrace.
    destruct r as [text|e]; cbn [delegate].
    + exists true, text, st1, ([EvExists image_path true] ++ evs).
      split; [done|]. split; [done|].
      intros ev c [->%list_elem_of_singleton|Hin]%elem_of_app Hc; [done|].
      by destruct (Hfail ev c Hin Hc) as (e & He & _).
    + exists false, (exn_msg e), st1, ([EvExists image_path true] ++ evs). done.
  - intros text output_path.
    destruct (HandwritingToTextBackend.save_text text output_path E st) as [r st'] eqn:Hrun.
    run_save_text.
    all: do 4 eexists; (split; [reflexivity|]);
      cbn [log with_fs fs tesseract_cmd trace];
      (split; [ rewrite <- ?app_assoc; cbn [app];
                first [ reflexivity | symmetry; apply app_nil_r ] | ]).
    all: intros ev c Hin Hc; try reflexivity.
    all: first [ by apply elem_of_nil in Hin | each_event Hin ].
    all: use_answers Hc; simplify_eq.
Qed.

(** C7.  [save_text] refuses an empty text and an empty output path, in
    this order, and leaves the state as it was: no call is made, and the
    filesystem is not touched.  It reaches the filesystem exactly when both
    arguments are non-empty, and then its first call opens the output path
    for writing. *)
Theorem save_text_rejects_empty
    (E : environ) (st : state) (text output_path : string) :
  (text = "" →
   HandwritingToTextBackend.save_text text output_path E st
   = (Return (false, "No text to save"), st))
  ∧ (text ≠ "" → output_path = "" →
     HandwritingToTextBackend.save_text text output_path E st
     = (Return (false, "No output path provided"), st))
  ∧ (snd (HandwritingToTextBackend.save_text text output_path E st) ≠ st →
     text ≠ "" ∧ output_path ≠ "")
  ∧ (text ≠ "" → output_path ≠ "" →
     ∃ evs,
       trace (snd (HandwritingToTextBackend.save_text text output_path E st))
       = trace st
         ++ EvOpenW output_path "utf-8" (env_open_w E output_path "utf-8") :: evs).
Proof.
  split; [by intros ->|]. split; [intros Hne ->; by destruct text|].
  split.
  - intros Hchanged. destruct text; [done|]. by destruct output_path.
  - intros Ht Hp.
    destruct (HandwritingToTextBackend.save_text text output_path E st) as [r st'] eqn:Hrun.
    destruct text; [done|]. destruct output_path; [done|].
    run_save_text.
    all: cbn [snd log with_fs fs tesseract_cmd trace].
    all: rewrite <- ?app_assoc; cbn [app]; eexists; reflexivity.
Qed.

(** *** Newlines *)




(** ** Instances *)

(** C1, as stated, fails: a path that does not exist and has another
    extension is reported as "File not found". *)
Lemma process_image_unsupported_counterexample :
  has_supported_extension "notes.txt" = false
  ∧ path_exists (fs installed) "notes.txt" = false
  ∧ HandwritingToTextBackend.process_image backend "notes.txt" windows_host installed
    = (Return (false, "File not found"),
       {| fs := fs installed; tesseract_cmd := "tesseract";
          trace := [EvExists "notes.txt" false] |})
  ∧ fst (HandwritingToTextBackend.process_image backend "notes.txt" windows_host installed)
    ≠ Return (false, "Unsupported file format").
Proof. repeat split. discriminate. Qed.

(** C1, instances: an existing page with a mixed-case extension is handed
    to the invoker; an existing file with another extension is refused. *)
Lemma process_image_format_gate_witness :
  HandwritingToTextBackend.process_image backend "scan.PNG" windows_host installed
  = (Return (true, "TEST"),
     {| fs := fs installed; tesseract_cmd := "tesseract";
        trace := [EvExists "scan.PNG" true;
                  EvExists "scan.PNG" true;
                  EvImageOpen "scan.PNG" (Return page);
                  EvConvert "L" (Return (Image "L" (img_pixels page)));
                  EvContrast 2 (Return (Image "L" (img_pixels page)));
                  EvFilter "SHARPEN" (Return (Image "L" (img_pixels page)));
                  EvExists "tesseract" false;
                  EvRun ["tesseract"; "--version"] 5 version_ok;
                  EvImageToString "tesseract" "--oem 3 --psm 6" (Return (" TEST" +:+ nl))] |})
  ∧ fst (HandwritingToTextBackend.process_image backend tesseract_exe windows_host installed)
    = Return (false, "Unsupported file format").
Proof.
  split.
  - rewrite (process_image_format_gate windows_host installed backend "scan.PNG")
      by reflexivity.
    reflexivity.
  - rewrite (process_image_format_gate windows_host installed backend tesseract_exe)
      by reflexivity.
    reflexivity.
Defined.

(** C3, as stated, fails: the version probe runs into its timeout, and the
    message of the error that [extract_text] raises does not hold the
    message of the [TimeoutExpired] that the probe raised. *)
Lemma extract_text_timeout_counterexample :
  fst (OCRProcessor.extract_text processor "scan.PNG" true slow_host installed)
  = Raise (Exn ValueError "Text extraction failed: Tesseract test timed out")
  ∧ last (trace (snd (OCRProcessor.extract_text processor "scan.PNG" true slow_host installed)))
    = Some (EvRun ["tesseract"; "--version"] 5 (Raise probe_timeout))
  ∧ occurs_in (exn_msg probe_timeout) "Text extraction failed: Tesseract test timed out"
    = false.
Proof. repeat split. Qed.

(** C3, an instance: the engine cannot be run, the error of the probe is
    wrapped by the test of the engine and then by [extract_text]. *)
Lemma extract_text_uniform_failure_witness :
  fst (OCRProcessor.extract_text processor "scan.PNG" true no_engine_host installed)
  = Raise (Exn ValueError
      ("Text extraction failed: Tesseract validation failed: "
       +:+ "[WinError 2] The system cannot find the file specified"))
  ∧ ∃ cause,
      OCRProcessor.extract_text_try processor "scan.PNG" true no_engine_host installed
      = (Raise cause,
         snd (OCRProcessor.extract_text processor "scan.PNG" true no_engine_host installed))
      ∧ "Text extraction failed: Tesseract validation failed: "
        +:+ "[WinError 2] The system cannot find the file specified"
        = "Text extraction failed: " +:+ exn_msg cause.
Proof.
  split; [reflexivity|].
  destruct (extract_text_uniform_failure no_engine_host processor "scan.PNG" true installed
              _ _ (surjective_pairing _)) as [Hraise _].
  destruct (Hraise _ eq_refl) as [_ Hcause]. exact Hcause.
Defined.



(** C6, an instance: a page that is not there. *)
Lemma process_image_missing_file_witness :
  ∃ evs,
    HandwritingToTextBackend.process_image backend "missing.png" windows_host installed
    = (Return (false, "File not found"),
       {| fs := fs installed; tesseract_cmd := "tesseract"; trace := [] ++ evs |})
    ∧ evs = [EvExists "missing.png" false]
    ∧ Forall (λ ev, opens_or_invokes ev = false) evs.
Proof.
  apply (process_image_missing_file windows_host installed backend "missing.png").
  - discriminate.
  - reflexivity.
Defined.

(** C7, instances: an empty text, an empty path, and both given. *)
Lemma save_text_rejects_empty_witness :
  HandwritingToTextBackend.save_text "" "out.txt" windows_host installed
  = (Return (false, "No text to save"), installed)
  ∧ HandwritingToTextBackend.save_text "TEST" "" windows_host installed
    = (Return (false, "No output path provided"), installed)
  ∧ ∃ evs,
      trace (snd (HandwritingToTextBackend.save_text "TEST" "out.txt" windows_host installed))
      = [] ++ EvOpenW "out.txt" "utf-8" None :: evs.
Proof.
  destruct (save_text_rejects_empty windows_host installed "" "out.txt") as (H1 & _).
  destruct (save_text_rejects_empty windows_host installed "TEST" "") as (_ & H2 & _).
  destruct (save_text_rejects_empty windows_host installed "TEST" "out.txt")
    as (_ & _ & _ & H3).
  split; [by apply H1|]. split; [by apply H2|]. by apply H3.
Defined.

(** C8, instances.  With a runnable engine the recognition call comes
    right after the successful test.  With a probe that times out, or an
    engine that is neither installed nor on the search path, the run ends
    after the test with the error that tells which, and there is no
    recognition call. *)
Lemma extract_text_revalidates_engine_witness :
  fst (OCRProcessor.extract_text processor "scan.PNG" false windows_host installed)
  = Return "TEST"
  ∧ (∃ evs0,
       OCRProcessor.extract_text processor "scan.PNG" false slow_host installed
       = (Raise (Exn ValueError "Text extraction failed: Tesseract test timed out"),
          {| fs := fs installed;
             tesseract_cmd := "tesseract";
             trace := evs0 ++ [EvExists "tesseract" false;
                               EvRun ["tesseract"; "--version"] 5 (Raise probe_timeout)] |}))
  ∧ (∃ evs0,
       OCRProcessor.extract_text processor "scan.PNG" false windows_host
         (with_cmd "D:\ocr\tesseract.exe" installed)
       = (Raise (Exn ValueError
            ("Text extraction failed: Tesseract validation failed: "
             +:+ "Tesseract executable not found at: D:\ocr\tesseract.exe")),
          {| fs := fs installed;
             tesseract_cmd := "D:\ocr\tesseract.exe";
             trace := evs0 ++ [EvExists "D:\ocr\tesseract.exe" false] |}))
  ∧ (∃ evs,
       trace (snd (OCRProcessor.extract_text processor "scan.PNG" true slow_host installed))
       = [] ++ evs
       ∧ Forall (λ ev, is_recognition ev = false) evs)
  ∧ fst (OCRProcessor.test_tesseract_cmd slow_host installed)
    = Raise (Exn ValueError "Tesseract test timed out").
Proof.
  split; [|split; [|split; [|split]]].
  - destruct (extract_text_revalidates_engine windows_host installed processor
                "scan.PNG" false) as (Hrun & _).
    destruct (Hrun page ltac:(discriminate) eq_refl eq_refl) as (evs0 & _ & Heq).
    rewrite Heq. reflexivity.
  - destruct (extract_text_revalidates_engine slow_host installed processor
                "scan.PNG" false) as (Hrun & _).
    destruct (Hrun page ltac:(discriminate) eq_refl eq_refl) as (evs0 & _ & Heq).
    exists evs0. rewrite Heq. reflexivity.
  - destruct (extract_text_revalidates_engine windows_host
                (with_cmd "D:\ocr\tesseract.exe" installed) processor
                "scan.PNG" false) as (Hrun & _).
    destruct (Hrun page ltac:(discriminate) eq_refl eq_refl) as (evs0 & _ & Heq).
    exists evs0. rewrite Heq. reflexivity.
  - destruct (extract_text_revalidates_engine slow_host installed processor
                "scan.PNG" true) as (_ & Hrun & _).
    destruct (Hrun _ _ (surjective_pairing _)) as (evs & Htrace & _ & Hfail).
    exists evs. split; [exact Htrace|]. by apply Hfail.
  - destruct (extract_text_revalidates_engine slow_host installed processor
                "scan.PNG" true) as (_ & _ & Htest).
    rewrite Htest. reflexivity.
Defined.

(** C10, instances: the empty path; a missing file with an unsupported
    extension; a missing file with a supported one. *)
Lemma process_image_check_order_witness :
  HandwritingToTextBackend.process_image backend "" windows_host installed
  = (Return (false, "No image path provided"), installed)
  ∧ fst (HandwritingToTextBackend.process_image backend "notes.txt" windows_host installed)
    = Return (false, "File not found")
  ∧ fst (HandwritingToTextBackend.process_image backend "missing.png" windows_host installed)
    = Return (false, "File not found").
Proof.
  destruct (process_image_check_order windows_host installed backend "") as (H1 & _).
  destruct (process_image_check_order windows_host installed backend "notes.txt")
    as (_ & H2 & _).
  destruct (process_image_check_order windows_host installed backend "missing.png")
    as (_ & H3 & _).
  split; [by apply H1|]. split.
  - by apply (H2 ltac:(discriminate) eq_refl false).
  - by apply (H3 ltac:(discriminate) eq_refl true).
Defined.

(** * Further properties of the backend *)

(** ** The format gate *)

Lemma extension_without_dot (e : string) :
  contains_char "."%char e = false → extension e = None.
Proof.
  induction e as [|c t IH]; [done|]. cbn [contains_char extension].
  intros [Hc Ht]%orb_false_iff. rewrite (IH Ht).
  by rewrite Ascii.eqb_sym, Hc.
Qed.

Lemma extension_last (stem e : string) :
  contains_char "."%char e = false →
  extension (stem +:+ String "."%char e) = Some e.
Proof.
  intros He. induction stem as [|c t IH].
  - rewrite app_empty. cbn [extension]. by rewrite (extension_without_dot e He).
  - rewrite app_cons. cbn [extension]. by rewrite IH.
Qed.

(** X1.  The suffix test of [process_image] reads the last extension only,
    whatever its case: a path that ends with a dot and a dot-free text [e]
    passes exactly when [e], lower-cased, is png, jpg, jpeg or bmp; what
    stands before that dot, other extensions included, does not count. *)
Theorem supported_format_last_extension (stem e : string) :
  contains_char "."%char e = false →
  HandwritingToTextBackend.supported_format (stem +:+ String "."%char e)
  = bool_decide (lower e ∈ supported_extensions).
Proof.
  intros He. rewrite supported_format_extension.
  unfold has_supported_extension. by rewrite extension_last.
Qed.

(** X1, instances: an upper-case extension after another one passes; a
    supported extension that is not the last one does not. *)
Lemma supported_format_last_extension_witness :
  HandwritingToTextBackend.supported_format "page.txt.JPeG" = true
  ∧ HandwritingToTextBackend.supported_format "page.png.txt" = false.
Proof.
  split.
  - apply (supported_format_last_extension "page.txt" "JPeG"). reflexivity.
  - apply (supported_format_last_extension "page.png" "txt"). reflexivity.
Defined.

(** ** The preprocessor *)

Ltac run_preprocess_image :=
  unfold OCRProcessor.preprocess_image, try_except, bind, raise, ret, os_path_exists,
    Image_open, img_convert, Contrast_enhance, img_filter in *;
  repeat (case_match; simplify_eq);
  cbn [log fs tesseract_cmd trace] in *.

(** X2.  [preprocess_image] returns an image exactly when the file exists
    and Pillow answers each of the four calls in turn: open, convert to
    grayscale, enhance the contrast by 2, sharpen.  The result is the
    answer of the last call, each step works on the answer of the step
    before, and these five calls, in this order, are all it makes. *)
Theorem preprocess_image_pipeline
    (E : environ) (st : state) (image_path : string) (img : image) (st' : state) :
  OCRProcessor.preprocess_image image_path E st = (Return img, st')
  ↔ ∃ opened gray enhanced,
      path_exists (fs st) image_path = true
      ∧ env_image_open E image_path (fs st !! image_path) = Return opened
      ∧ env_convert E opened "L" = Return gray
      ∧ env_contrast E gray 2 = Return enhanced
      ∧ env_filter E enhanced "SHARPEN" = Return img
      ∧ st' = {| fs := fs st;
                 tesseract_cmd := tesseract_cmd st;
                 trace := trace st
                          ++ [EvExists image_path true;
                              EvImageOpen image_path (Return opened);
                              EvConvert "L" (Return gray);
                              EvContrast 2 (Return enhanced);
                              EvFilter "SHARPEN" (Return img)] |}.
Proof.
  split.
  - intros H. run_preprocess_image.
    match goal with H : negb _ = false |- _ => apply negb_false_iff in H; rewrite H in * end.
    do 3 eexists. repeat (split; [eassumption || reflexivity|]).
    unfold log; cbn [fs tesseract_cmd trace]. by rewrite <- !app_assoc.
  - intros (opened & gray & enhanced & Hex & Hopen & Hgray & Hcontrast & Hsharp & ->).
    unfold OCRProcessor.preprocess_image, try_except, bind, raise, ret, os_path_exists,
      Image_open, img_convert, Contrast_enhance, img_filter.
    cbv zeta. rewrite Hex. cbn [negb]. unfold log. cbn [fs tesseract_cmd trace].
    rewrite Hopen, Hgray, Hcontrast, Hsharp.
    by rewrite <- !app_assoc.
Qed.

(** X2, an instance: the page of the sample host, as it leaves the
    preprocessor. *)
Lemma preprocess_image_pipeline_witness :
  OCRProcessor.preprocess_image "scan.PNG" windows_host installed
  = (Return (Image "L" (img_pixels page)),
     {| fs := fs installed;
        tesseract_cmd := "tesseract";
        trace := [EvExists "scan.PNG" true;
                  EvImageOpen "scan.PNG" (Return page);
                  EvConvert "L" (Return (Image "L" (img_pixels page)));
                  EvContrast 2 (Return (Image "L" (img_pixels page)));
                  EvFilter "SHARPEN" (Return (Image "L" (img_pixels page)))] |}).
Proof.
  apply (preprocess_image_pipeline windows_host installed "scan.PNG").
  exists page, (Image "L" (img_pixels page)), (Image "L" (img_pixels page)).
  repeat split.
Defined.

(** X3.  Whatever goes wrong in [preprocess_image] comes out as a
    [ValueError] whose message is "Image processing failed: " followed by
    the message of the cause.  A missing file is reported without any
    attempt to open it.  Otherwise the cause is a failed Pillow call: it is
    the last call made, every call before it succeeded, and no later step
    of the pipeline is run. *)
Theorem preprocess_image_failure
    (E : environ) (st : state) (image_path : string) (e : exn) (st' : state) :
  OCRProcessor.preprocess_image image_path E st = (Raise e, st') →
  exn_class_of e = ValueError
  ∧ startswith (exn_msg e) "Image processing failed: " = true
  ∧ ∃ evs,
      trace st' = trace st ++ evs
      ∧ Forall (λ ev, event_exn ev = None) (but_last evs)
      ∧ if path_exists (fs st) image_path then
          ∃ ev c, last evs = Some ev
                  ∧ event_exn ev = Some c
                  ∧ exn_msg e = "Image processing failed: " +:+ exn_msg c
        else
          evs = [EvExists image_path false]
          ∧ exn_msg e
            = "Image processing failed: Image file does not exist: " +:+ image_path.
Proof.
  intros H. run_preprocess_image.
  all: (split; [reflexivity|]); (split; [apply startswith_app|]).
  all: explicit_trace.
  all: (split; [ unfold but_last; cbn [length Nat.sub take]; repeat constructor | ]).
  all: first [ by split
             | do 2 eexists; (split; [reflexivity|]); by split ].
Qed.

(** X3, an instance: Pillow cannot read the file as an image. *)
Lemma preprocess_image_failure_witness :
  fst (OCRProcessor.preprocess_image "scan.PNG" unreadable_host installed)
  = Raise (Exn ValueError
             "Image processing failed: cannot identify image file 'scan.PNG'")
  ∧ ∃ evs,
      trace (snd (OCRProcessor.preprocess_image "scan.PNG" unreadable_host installed))
      = [] ++ evs
      ∧ Forall (λ ev, event_exn ev = None) (but_last evs).
Proof.
  split; [reflexivity|].
  destruct (preprocess_image_failure unreadable_host installed "scan.PNG"
              (Exn ValueError
                 "Image processing failed: cannot identify image file 'scan.PNG'")
              _ (surjective_pairing _))
    as (_ & _ & evs & Htrace & Hbefore & _).
  exists evs. split; [exact Htrace | exact Hbefore].
Defined.

(** ** The invoker *)

(** X4.  [extract_text] stops at the first call that fails: in every run
    all calls but the last one succeeded, and in a run that returns a text
    every call succeeded. *)
Theorem extract_text_stops_at_first_failure
    (E : environ) (self : OCRProcessor.t) (image_path : string) (preprocess : bool)
    (st : state) :
  ∃ evs,
    trace (snd (OCRProcessor.extract_text self image_path preprocess E st))
    = trace st ++ evs
    ∧ Forall (λ ev, event_exn ev = None) (but_last evs)
    ∧ ∀ text,
        fst (OCRProcessor.extract_text self image_path preprocess E st) = Return text →
        Forall (λ ev, event_exn ev = None) evs.
Proof.
  destruct (OCRProcessor.extract_text self image_path preprocess E st)
    as [r st'] eqn:H.
  run_extract_text.
  all: cbn [fst snd log fs tesseract_cmd trace]; explicit_trace.
  all: (split; [ unfold but_last; cbn [length Nat.sub take];
                 repeat constructor; cbn [event_exn outcome_exn];
                 use_answers_goal; reflexivity | ]).
  all: intros text Htext; try discriminate Htext.
  all: repeat constructor; cbn [event_exn outcome_exn]; use_answers_goal; reflexivity.
Qed.

(** X5.  With [preprocess] off, [extract_text] applies none of the three
    preprocessing steps. *)
Theorem extract_text_raw_skips_filters
    (E : environ) (self : OCRProcessor.t) (image_path : string) (st : state) :
  ∃ evs,
    trace (snd (OCRProcessor.extract_text self image_path false E st)) = trace st ++ evs
    ∧ Forall (λ ev, is_filter ev = false) evs.
Proof.
  destruct (OCRProcessor.extract_text self image_path false E st) as [r st'] eqn:H.
  run_extract_text.
  all: cbn [fst snd log fs tesseract_cmd trace]; explicit_trace.
  all: repeat constructor.
Qed.

(** When [extract_text] returns, and what. *)
Lemma extract_text_returns_iff
    (E : environ) (self : OCRProcessor.t) (image_path : string) (preprocess : bool)
    (st : state) (text : string) :
  fst (OCRProcessor.extract_text self image_path preprocess E st) = Return text
  ↔ ∃ img out,
      image_path ≠ ""
      ∧ path_exists (fs st) image_path = true
      ∧ image_for_engine E (fs st) image_path preprocess = Return img
      ∧ engine_runnable E (fs st) (tesseract_cmd st) = true
      ∧ env_image_to_string E (tesseract_cmd st) img (OCRProcessor.config self)
        = Return out
      ∧ text = strip out.
Proof.
  destruct (OCRProcessor.extract_text self image_path preprocess E st)
    as [r st'] eqn:H.
  cbn [fst]. split.
  - intros ->. run_extract_text.
    all: do 2 eexists.
    all: (split; [ by apply String.eqb_neq | ]).
    all: match goal with
         | Hex : negb ?b = false |- _ => apply negb_false_iff in Hex
         end.
    all: (split; [ assumption | ]).
    all: (split; [ unfold image_for_engine, pillow_pipeline; use_answers_goal;
                   reflexivity | ]).
    all: (split; [ unfold engine_runnable; use_answers_goal; reflexivity | ]).
    all: split; [ eassumption | reflexivity ].
  - intros (img & out & Hne & Hex & Himg & Hrun & Hocr & ->).
    apply String.eqb_neq in Hne.
    unfold engine_runnable in Hrun. apply andb_true_iff in Hrun as [Hfound Hprobe].
    destruct (env_run E [tesseract_cmd st; "--version"] 5) as [cp|?] eqn:Hcp;
      [|discriminate Hprobe].
    unfold image_for_engine, pillow_pipeline in Himg.
    destruct preprocess.
    + destruct (env_image_open E image_path (fs st !! image_path)) as [opened|?] eqn:Ho;
        [|discriminate Himg].
      destruct (env_convert E opened "L") as [gray|?] eqn:Hg; [|discriminate Himg].
      destruct (env_contrast E gray 2) as [enhanced|?] eqn:Hc; [|discriminate Himg].
      run_extract_text; try congruence.
      all: match goal with Hn : negb _ = true |- _ => rewrite Hex in Hn; discriminate Hn end.
    + run_extract_text; try congruence.
      all: match goal with Hn : negb _ = true |- _ => rewrite Hex in Hn; discriminate Hn end.
Qed.

(** X6.  [extract_text] returns a text exactly when the path is not empty
    and exists, the image is obtained (through the preprocessing pipeline,
    or by opening the file when [preprocess] is off), the engine command
    passes its test, and the recognition call answers.  The text is the
    answer of the engine, run on that image with the configuration of the
    processor, stripped of surrounding white space. *)
Theorem extract_text_success
    (E : environ) (self : OCRProcessor.t) (image_path : string) (preprocess : bool)
    (st : state) (text : string) :
  fst (OCRProcessor.extract_text self image_path preprocess E st) = Return text
  ↔ ∃ img out,
      image_path ≠ ""
      ∧ path_exists (fs st) image_path = true
      ∧ image_for_engine E (fs st) image_path preprocess = Return img
      ∧ engine_runnable E (fs st) (tesseract_cmd st) = true
      ∧ env_image_to_string E (tesseract_cmd st) img (OCRProcessor.config self)
        = Return out
      ∧ text = strip out.
Proof. apply extract_text_returns_iff. Qed.

(** X6, instances: the sample page is read as "TEST", also when the
    engine frames the text with a no-break space and an em space. *)
Lemma extract_text_success_witness :
  fst (OCRProcessor.extract_text processor "scan.PNG" true windows_host installed)
  = Return "TEST"
  ∧ fst (OCRProcessor.extract_text processor "scan.PNG" true padding_host installed)
    = Return "TEST".
Proof.
  split.
  - apply (extract_text_success windows_host processor "scan.PNG" true installed "TEST").
    exists (Image "L" (img_pixels page)), (" TEST" +:+ nl).
    repeat split. discriminate.
  - apply (extract_text_success padding_host processor "scan.PNG" true installed "TEST").
    exists (Image "L" (img_pixels page)), (nbsp +:+ "TEST" +:+ em_space +:+ nl).
    repeat split. discriminate.
Defined.

(** X7.  Invalid input of [extract_text].  The empty path is refused
    before any call is made.  A path that does not exist is refused after
    the existence test alone, the engine is neither probed nor run, and the
    message depends on the mode: with [preprocess] on, the refusal comes
    from the preprocessor and is wrapped once more. *)
Theorem extract_text_invalid_path
    (E : environ) (self : OCRProcessor.t) (image_path : string) (preprocess : bool)
    (st : state) :
  path_exists (fs st) image_path = false →
  OCRProcessor.extract_text self image_path preprocess E st
  = if truthy image_path then
      (Raise (Exn ValueError
                ("Text extraction failed: "
                 +:+ (if preprocess then "Image processing failed: " else "")
                 +:+ "Image file does not exist: " +:+ image_path)),
       {| fs := fs st; tesseract_cmd := tesseract_cmd st;
          trace := trace st ++ [EvExists image_path false] |})
    else
      (Raise (Exn ValueError "Text extraction failed: Image path is empty string"), st).
Proof.
  intros Hmiss. destruct image_path as [|c p]; [reflexivity|].
  destruct preprocess; unfold_extract_text; cbv zeta; cbn [truthy String.eqb];
    rewrite Hmiss; reflexivity.
Qed.

(** X7, instances: a missing page in either mode, and the empty path. *)
Lemma extract_text_invalid_path_witness :
  fst (OCRProcessor.extract_text processor "missing.png" true windows_host installed)
  = Raise (Exn ValueError
      "Text extraction failed: Image processing failed: Image file does not exist: missing.png")
  ∧ fst (OCRProcessor.extract_text processor "missing.png" false windows_host installed)
    = Raise (Exn ValueError
        "Text extraction failed: Image file does not exist: missing.png")
  ∧ OCRProcessor.extract_text processor "" true windows_host installed
    = (Raise (Exn ValueError "Text extraction failed: Image path is empty string"),
       installed).
Proof.
  split; [|split].
  - rewrite (extract_text_invalid_path windows_host processor "missing.png" true installed)
      by reflexivity.
    reflexivity.
  - rewrite (extract_text_invalid_path windows_host processor "missing.png" false installed)
      by reflexivity.
    reflexivity.
  - apply (extract_text_invalid_path windows_host processor "" true installed).
    reflexivity.
Defined.

(** ** White space at the ends *)

Lemma string_app_nil_r (s : string) : s +:+ "" = s.
Proof. induction s as [|c s IH]; [done|]. by rewrite app_cons, IH. Qed.

Lemma string_app_assoc (a b c : string) : (a +:+ b) +:+ c = a +:+ (b +:+ c).
Proof. induction a as [|x a IH]; [done|]. by rewrite !app_cons, IH. Qed.

Lemma rev_app_spec (s acc : string) : String.rev_app s acc = String.rev s +:+ acc.
Proof.
  revert acc. induction s as [|c s IH]; intros acc; [done|].
  unfold String.rev. cbn [String.rev_app].
  rewrite (IH (String c acc)), (IH (String c "")).
  by rewrite string_app_assoc.
Qed.

Lemma rev_cons (c : ascii) (s : string) :
  String.rev (String c s) = String.rev s +:+ String c "".
Proof. unfold String.rev at 1. cbn [String.rev_app]. apply rev_app_spec. Qed.

Lemma rev_app_distr (a b : string) :
  String.rev (a +:+ b) = String.rev b +:+ String.rev a.
Proof.
  induction a as [|c a IH]; [by rewrite app_empty, string_app_nil_r|].
  by rewrite app_cons, !rev_cons, IH, string_app_assoc.
Qed.

Lemma rev_involutive (s : string) : String.rev (String.rev s) = s.
Proof.
  induction s as [|c s IH]; [done|].
  by rewrite rev_cons, rev_app_distr, IH.
Qed.

Lemma string_wf_ind (P : string → Prop) :
  (∀ s, (∀ t, (String.length t < String.length s)%nat → P t) → P s) → ∀ s, P s.
Proof.
  intros Hstep s.
  induction s as [s IH]
    using (well_founded_induction (Wf_nat.well_founded_ltof _ String.length)).
  apply Hstep. intros t Hlt. by apply IH.
Qed.

Lemma lstrip_bytes_split (backwards : bool) (s : string) :
  ∃ sp, s = sp +:+ lstrip_bytes backwards s.
Proof.
  induction s as [s IH] using string_wf_ind.
  destruct s as [|c0 t0]; [by exists ""|]. cbn [lstrip_bytes].
  destruct (is_space c0).
  { destruct (IH t0) as [sp Hsp]; [cbn; lia|].
    exists (String c0 sp). by rewrite app_cons, <- Hsp. }
  destruct t0 as [|c1 t1]; [by exists ""|].
  destruct (space2 backwards c0 c1).
  { destruct (IH t1) as [sp Hsp]; [cbn; lia|].
    exists (String c0 (String c1 sp)). by rewrite !app_cons, <- Hsp. }
  destruct t1 as [|c2 t2]; [by exists ""|].
  destruct (space3 backwards c0 c1 c2); [|by exists ""].
  destruct (IH t2) as [sp Hsp]; [cbn; lia|].
  exists (String c0 (String c1 (String c2 sp))). by rewrite !app_cons, <- Hsp.
Qed.

Lemma lstrip_bytes_head (backwards : bool) (s : string) :
  space_at_head backwards (lstrip_bytes backwards s) = false.
Proof.
  induction s as [s IH] using string_wf_ind.
  destruct s as [|c0 t0]; [done|]. cbn [lstrip_bytes].
  destruct (is_space c0) eqn:H0; [apply IH; cbn; lia|].
  destruct t0 as [|c1 t1]; [cbn; by rewrite H0|].
  destruct (space2 backwards c0 c1) eqn:H1; [apply IH; cbn; lia|].
  destruct t1 as [|c2 t2]; [cbn; by rewrite H0, H1|].
  destruct (space3 backwards c0 c1 c2) eqn:H2; [apply IH; cbn; lia|].
  cbn. by rewrite H0, H1, H2.
Qed.

Lemma lstrip_bytes_id (backwards : bool) (s : string) :
  space_at_head backwards s = false → lstrip_bytes backwards s = s.
Proof.
  destruct s as [|c0 [|c1 [|c2 t2]]]; cbn [space_at_head lstrip_bytes]; [done| | |].
  - rewrite orb_false_r. by intros ->.
  - rewrite orb_false_r. by intros [-> ->]%orb_false_iff.
  - by intros [-> [-> ->]%orb_false_iff]%orb_false_iff.
Qed.

(** White space at the head of a string is at the head of every string
    that starts with it. *)
Lemma space_at_head_app (backwards : bool) (p q : string) :
  space_at_head backwards (p +:+ q) = false → space_at_head backwards p = false.
Proof.
  destruct p as [|c0 [|c1 [|c2 t2]]]; rewrite ?app_cons, ?app_empty; [done| | |done].
  - cbn [space_at_head]. destruct (is_space c0); [done|]. by rewrite orb_false_r.
  - cbn [space_at_head]. destruct (is_space c0); [done|].
    destruct (space2 backwards c0 c1); [|done]. by destruct q.
Qed.

(** A line feed gives no white-space character together with the bytes
    before it. *)
Lemma space_at_head_line (backwards : bool) (s : string) :
  s ≠ "" → space_at_head backwards s = false →
  space_at_head backwards (s +:+ nl) = false.
Proof.
  intros Hne. destruct s as [|c0 [|c1 [|c2 t2]]]; [done| | |done].
  - change (String c0 "" +:+ nl) with (String c0 (String "010"%char "")).
    cbn [space_at_head]. destruct (is_space c0); [done|]. intros _.
    unfold space2, is_space2. destruct backwards; cbn; [done|].
    by destruct (N_of_ascii c0 =? 194)%N.
  - change (String c0 (String c1 "") +:+ nl)
      with (String c0 (String c1 (String "010"%char ""))).
    cbn [space_at_head]. destruct (is_space c0); [done|].
    destruct (space2 backwards c0 c1); [done|]. intros _.
    unfold space3, is_space3. destruct backwards; cbn; [done|].
    by destruct (N_of_ascii c0 =? 225)%N, (N_of_ascii c0 =? 226)%N,
      (N_of_ascii c0 =? 227)%N, (N_of_ascii c1 =? 154)%N,
      (N_of_ascii c1 =? 128)%N, (N_of_ascii c1 =? 129)%N.
Qed.

Lemma space_at_head_ascii (backwards : bool) (s : string) :
  space_at_head backwards s = false → starts_with_space s = false.
Proof. destruct s as [|c t]; [done|]. cbn. by destruct (is_space c). Qed.

(** What [strip] returns has no white space at either end. *)
Lemma strip_stripped (s : string) : stripped (strip s) = true.
Proof.
  unfold stripped, strip, rstrip. rewrite rev_involutive, lstrip_bytes_head.
  rewrite andb_true_r. apply negb_true_iff.
  destruct (lstrip_bytes_split true (String.rev (lstrip s))) as [sp Hsp].
  apply (f_equal String.rev) in Hsp. rewrite rev_involutive, rev_app_distr in Hsp.
  apply (space_at_head_app false _ (String.rev sp)). rewrite <- Hsp.
  apply lstrip_bytes_head.
Qed.

Lemma stripped_trimmed (s : string) : stripped s = true → trimmed s = true.
Proof.
  unfold stripped, trimmed. intros [Hl Hr]%andb_true_iff.
  apply negb_true_iff in Hl, Hr.
  by rewrite (space_at_head_ascii _ _ Hl), (space_at_head_ascii _ _ Hr).
Qed.

Lemma strip_trimmed (s : string) : trimmed (strip s) = true.
Proof. apply stripped_trimmed, strip_stripped. Qed.

(** Stripping again changes nothing, also after a line feed was added. *)
Lemma strip_of_stripped (s : string) : stripped s = true → strip s = s.
Proof.
  unfold stripped, strip, rstrip, lstrip. intros [Hl Hr]%andb_true_iff.
  apply negb_true_iff in Hl, Hr.
  by rewrite (lstrip_bytes_id false s Hl), (lstrip_bytes_id true _ Hr), rev_involutive.
Qed.

Lemma strip_line_of_stripped (s : string) : stripped s = true → strip (s +:+ nl) = s.
Proof.
  unfold stripped. intros [Hl Hr]%andb_true_iff.
  apply negb_true_iff in Hl, Hr.
  destruct s as [|c s]; [done|].
  unfold strip, rstrip, lstrip.
  rewrite (lstrip_bytes_id false (String c s +:+ nl))
    by (by apply space_at_head_line).
  rewrite rev_app_distr.
  change (String.rev nl) with nl. change (nl +:+ ?x) with (String "010"%char x).
  cbn [lstrip_bytes]. change (is_space "010") with true. cbn iota.
  by rewrite (lstrip_bytes_id true _ Hr), rev_involutive.
Qed.

(** What [extract_text] returns is a stripped answer of the engine. *)
Lemma extract_text_returns_strip
    (E : environ) (self : OCRProcessor.t) (image_path : string) (preprocess : bool)
    (st : state) (text : string) :
  fst (OCRProcessor.extract_text self image_path preprocess E st) = Return text →
  ∃ out, text = strip out.
Proof.
  destruct (OCRProcessor.extract_text self image_path preprocess E st)
    as [r st'] eqn:H.
  cbn [fst]. intros ->. run_extract_text; by eexists.
Qed.

(** X8.  The text that [extract_text] returns neither starts nor ends with
    white space, so stripping it again gives the same text. *)
Theorem extract_text_trimmed
    (E : environ) (self : OCRProcessor.t) (image_path : string) (preprocess : bool)
    (st : state) (text : string) :
  fst (OCRProcessor.extract_text self image_path preprocess E st) = Return text →
  trimmed text = true ∧ strip text = text.
Proof.
  intros [out ->]%extract_text_returns_strip.
  split; [apply strip_trimmed|]. apply strip_of_stripped, strip_stripped.
Qed.

(** X8, an instance: the engine answers with a leading space and a final
    line feed. *)
Lemma extract_text_trimmed_witness :
  trimmed "TEST" = true ∧ strip "TEST" = "TEST".
Proof.
  apply (extract_text_trimmed windows_host processor "scan.PNG" true installed "TEST").
  reflexivity.
Defined.

(** ** The engine reference *)

(** X9.  Only the locator assigns the engine command: [extract_text],
    [process_image] and [save_text] leave it as they found it, whatever
    the host answers and however they end. *)
Theorem engine_reference_is_kept (E : environ) (st : state) :
  (∀ self image_path preprocess,
     tesseract_cmd (snd (OCRProcessor.extract_text self image_path preprocess E st))
     = tesseract_cmd st)
  ∧ (∀ self image_path,
       tesseract_cmd (snd (HandwritingToTextBackend.process_image self image_path E st))
       = tesseract_cmd st)
  ∧ (∀ text output_path,
       tesseract_cmd (snd (HandwritingToTextBackend.save_text text output_path E st))
       = tesseract_cmd st).
Proof.
  assert (Hextract : ∀ self image_path preprocess st0,
            tesseract_cmd (snd (OCRProcessor.extract_text self image_path preprocess E st0))
            = tesseract_cmd st0).
  { intros self image_path preprocess st0.
    destruct (OCRProcessor.extract_text self image_path preprocess E st0)
      as [r st'] eqn:H.
    run_extract_text; reflexivity. }
  split; [intros; apply Hextract|]. split.
  - intros self image_path. rewrite process_image_run.
    repeat case_match; try reflexivity.
    unfold delegate.
    pose proof (Hextract (HandwritingToTextBackend.ocr self) image_path true
                  (log (EvExists image_path true) st)) as Hkept.
    destruct (OCRProcessor.extract_text _ _ _ _ _) as [[text|e] st1]; exact Hkept.
  - intros text output_path.
    destruct (HandwritingToTextBackend.save_text text output_path E st) as [r st'] eqn:H.
    run_save_text; reflexivity.
Qed.

Lemma test_paths_fs (E : environ) (paths : list string) (st : state) :
  fs (snd (OCRProcessor.test_paths paths E st)) = fs st.
Proof.
  revert st. induction paths as [|p rest IH]; intros st; [done|].
  cbn [OCRProcessor.test_paths]. unfold bind at 1. rewrite test_path_run.
  destruct (accepts E (fs st) p); [done|]. by rewrite IH.
Qed.

(** X10.  After [__init__] has returned a processor, the engine command
    is found as long as the filesystem stays as it was: it exists, or it is
    the bare name.  The test that [extract_text] makes before recognition
    then always gets as far as the version probe; it cannot end with "not
    found". *)
Theorem init_engine_found
    (E : environ) (st : state) (tesseract_path : option string)
    (self : OCRProcessor.t) (st' : state) :
  OCRProcessor.__init__ tesseract_path E st = (Return self, st') →
  fs st' = fs st
  ∧ engine_found (fs st') (tesseract_cmd st') = true
  ∧ ∀ E',
      trace (snd (OCRProcessor.test_tesseract_cmd E' st'))
      = trace st'
        ++ [EvExists (tesseract_cmd st') (path_exists (fs st') (tesseract_cmd st'));
            EvRun [tesseract_cmd st'; "--version"] 5
              (env_run E' [tesseract_cmd st'; "--version"] 5)].
Proof.
  intros Hrun. rewrite init_run in Hrun.
  assert (Hfs : fs st' = fs st).
  { pose proof (test_paths_fs E
                  (OCRProcessor.possible_paths (env_getenv E "USERNAME") tesseract_path)
                  (log (EvGetenv "USERNAME" (env_getenv E "USERNAME")) st)) as Hkeep.
    destruct (OCRProcessor.test_paths _ E _) as [[[]|] st1]; by simplify_eq. }
  assert (Hfound : engine_found (fs st') (tesseract_cmd st') = true).
  { rewrite Hfs.
    destruct (first_accepted_or_none E (fs st)
                (OCRProcessor.possible_paths (env_getenv E "USERNAME") tesseract_path))
      as [Hrej|(before & c & after & Hlist & Hrej & Hacc)].
    - rewrite test_paths_rejected in Hrun by done. done.
    - rewrite Hlist in Hrun. rewrite test_paths_first_accepted in Hrun by done.
      simplify_eq. cbn [tesseract_cmd]. unfold engine_found, accepts in *.
      destruct (String.eqb c "tesseract"); [apply orb_true_r|].
      by rewrite Hacc. }
  split; [exact Hfs|]. split; [exact Hfound|].
  intros E'. rewrite test_tesseract_cmd_run. cbv zeta. rewrite Hfound.
  destruct (env_run E' [tesseract_cmd st'; "--version"] 5) as [cp|e].
  - destruct (returncode cp =? 0); cbn [snd log trace]; by rewrite <- app_assoc.
  - destruct (is_TimeoutExpired e); cbn [snd log trace]; by rewrite <- app_assoc.
Qed.

(** X10, an instance: the engine found in its first install location. *)
Lemma init_engine_found_witness :
  engine_found (fs installed) tesseract_exe = true.
Proof.
  destruct (init_engine_found windows_host installed (Some "D:\ocr\tesseract.exe")
              processor
              {| fs := fs installed;
                 tesseract_cmd := tesseract_exe;
                 trace := [EvGetenv "USERNAME" (Some "ada");
                           EvExists "D:\ocr\tesseract.exe" false;
                           EvExists tesseract_exe true] |}
              eq_refl)
    as (_ & Hfound & _).
  exact Hfound.
Defined.

Lemma probe_event_locator_call (E : environ) (f : gmap string node)
    (cands : list string) (p : string) :
  p ∈ cands → locator_call cands (probe_event E f p).
Proof.
  intros Hin. unfold probe_event.
  destruct (String.eqb_spec p "tesseract") as [->|Hne]; cbn; done.
Qed.

(** X11.  The locator runs nothing but the bare name.  Every call of
    [__init__] is the lookup of the user name, the existence test of a
    path-form candidate, or the version probe of the bare name under a
    timeout of 10: a candidate given as a path is accepted on its
    existence alone and is never executed. *)
Theorem locator_runs_only_bare_name
    (E : environ) (st : state) (tesseract_path : option string) :
  ∃ evs,
    trace (snd (OCRProcessor.__init__ tesseract_path E st)) = trace st ++ evs
    ∧ Forall (locator_call
                (OCRProcessor.possible_paths (env_getenv E "USERNAME") tesseract_path))
        evs.
Proof.
  rewrite init_run.
  set (cands := OCRProcessor.possible_paths (env_getenv E "USERNAME") tesseract_path).
  destruct (first_accepted_or_none E (fs st) cands)
    as [Hrej|(before & c & after & Hlist & Hrej & Hacc)].
  - rewrite test_paths_rejected by done. cbn [snd log fs trace].
    exists (EvGetenv "USERNAME" (env_getenv E "USERNAME")
            :: map (probe_event E (fs st)) cands).
    split; [by rewrite <- app_assoc|]. constructor; [done|].
    apply Forall_map, Forall_forall. intros p Hp. by apply probe_event_locator_call.
  - rewrite Hlist. rewrite test_paths_first_accepted by done. cbn [snd log fs trace].
    exists (EvGetenv "USERNAME" (env_getenv E "USERNAME")
            :: map (probe_event E (fs st)) (before ++ [c])).
    split; [by rewrite <- app_assoc|]. constructor; [done|].
    apply Forall_map, Forall_forall. intros p Hp.
    rewrite <- Hlist. apply probe_event_locator_call. rewrite Hlist.
    apply elem_of_app in Hp as [Hp|Hp%list_elem_of_singleton].
    + apply elem_of_app. by left.
    + subst p. apply elem_of_app. right. by left.
Qed.

(** ** The facade *)

Lemma backend_init_run (E : environ) (st : state) (tesseract_path : option string) :
  HandwritingToTextBackend.__init__ tesseract_path E st
  = match OCRProcessor.__init__ tesseract_path E st with
    | (Return o, st') => (Return {| HandwritingToTextBackend.ocr := o |}, st')
    | (Raise e, st') => (Raise e, st')
    end.
Proof.
  unfold HandwritingToTextBackend.__init__, bind, ret.
  by destruct (OCRProcessor.__init__ tesseract_path E st) as [[o|e] st'].
Qed.

(** X12.  A backend built by [HandwritingToTextBackend.__init__] holds a
    processor configured with "--oem 3 --psm 6", and every recognition call
    that [process_image] makes through it, on any path and under any later
    answers of the host, runs the engine command that the locator set, with
    that configuration. *)
Theorem backend_recognition_calls
    (E : environ) (st : state) (tesseract_path : option string)
    (self : HandwritingToTextBackend.t) (st1 : state) :
  HandwritingToTextBackend.__init__ tesseract_path E st = (Return self, st1) →
  OCRProcessor.config (HandwritingToTextBackend.ocr self) = "--oem 3 --psm 6"
  ∧ ∀ E' image_path,
      ∃ evs,
        trace (snd (HandwritingToTextBackend.process_image self image_path E' st1))
        = trace st1 ++ evs
        ∧ Forall (recognition_uses (tesseract_cmd st1) "--oem 3 --psm 6") evs.
Proof.
  intros Hinit. rewrite backend_init_run, init_run in Hinit.
  assert (Hconfig : OCRProcessor.config (HandwritingToTextBackend.ocr self)
                    = "--oem 3 --psm 6").
  { destruct (OCRProcessor.test_paths _ E _) as [[[]|] st0]; by simplify_eq. }
  split; [exact Hconfig|].
  intros E' image_path. rewrite process_image_run.
  destruct (truthy image_path); cbn [negb].
  2: { exists []. split; [by rewrite app_nil_r|constructor]. }
  destruct (path_exists (fs st1) image_path); cbn [negb].
  2: { exists [EvExists image_path false]. by repeat constructor. }
  destruct (has_supported_extension image_path); cbn [negb].
  2: { exists [EvExists image_path true]. by repeat constructor. }
  destruct (OCRProcessor.extract_text _ image_path true E' _) as [r st2] eqn:H.
  assert (Htrace : ∃ evs, trace st2 = trace st1 ++ evs
                          ∧ Forall (recognition_uses (tesseract_cmd st1)
                                      (OCRProcessor.config
                                         (HandwritingToTextBackend.ocr self))) evs).
  { run_extract_text.
    all: explicit_trace.
    all: repeat constructor. }
  rewrite Hconfig in Htrace.
  unfold delegate. by destruct r.
Qed.

(** X12, an instance: the backend of the sample host. *)
Lemma backend_recognition_calls_witness :
  OCRProcessor.config (HandwritingToTextBackend.ocr backend) = "--oem 3 --psm 6"
  ∧ ∃ evs,
      trace (snd (HandwritingToTextBackend.process_image backend "scan.PNG"
                    windows_host
                    (snd (HandwritingToTextBackend.__init__ None windows_host installed))))
      = trace (snd (HandwritingToTextBackend.__init__ None windows_host installed)) ++ evs
      ∧ Forall (recognition_uses tesseract_exe "--oem 3 --psm 6") evs.
Proof.
  destruct (backend_recognition_calls windows_host installed None backend
              (snd (HandwritingToTextBackend.__init__ None windows_host installed))
              eq_refl)
    as [Hconfig Hcalls].
  split; [exact Hconfig|]. exact (Hcalls windows_host "scan.PNG").
Defined.

(** X13.  The reasons for which [process_image] fails.  The message is one
    of the three refusals of the facade, or it starts with
    "Text extraction failed: " and then names the stage that failed: the
    image processing, the test of the engine (with a message of its own
    for a timeout), or the recognition call, whose own message follows. *)
Theorem process_image_failure_reasons
    (E : environ) (st : state) (self : HandwritingToTextBackend.t)
    (image_path msg : string) :
  fst (HandwritingToTextBackend.process_image self image_path E st)
  = Return (false, msg) →
  msg = "No image path provided"
  ∨ msg = "File not found"
  ∨ msg = "Unsupported file format"
  ∨ (∃ m, msg = "Text extraction failed: Image processing failed: " +:+ m)
  ∨ (∃ m, msg = "Text extraction failed: Tesseract validation failed: " +:+ m)
  ∨ msg = "Text extraction failed: Tesseract test timed out"
  ∨ (∃ img e,
       env_image_to_string E (tesseract_cmd st) img
         (OCRProcessor.config (HandwritingToTextBackend.ocr self)) = Raise e
       ∧ msg = "Text extraction failed: " +:+ exn_msg e).
Proof.
  rewrite process_image_run.
  destruct (truthy image_path) eqn:Hpath; cbn [negb fst]; [|intros [= <-]; by left].
  destruct (path_exists (fs st) image_path); cbn [negb fst];
    [|intros [= <-]; right; by left].
  destruct (has_supported_extension image_path); cbn [negb fst];
    [|intros [= <-]; do 2 right; by left].
  destruct (OCRProcessor.extract_text _ image_path true E _) as [r st'] eqn:H.
  unfold delegate. destruct r as [text|e]; cbn [fst]; [discriminate|].
  intros [= <-]. do 3 right.
  run_extract_text; cbn [exn_msg].
  all: first [ by left; eexists
             | by right; left; eexists
             | by right; right; left
             | right; right; right; do 2 eexists; split; [eassumption|reflexivity]
             | match goal with
               | Hempty : String.eqb ?p "" = true |- _ =>
                   apply String.eqb_eq in Hempty; by subst p
               end ].
Qed.

(** X13, an instance: the version probe runs into its timeout. *)
Lemma process_image_failure_reasons_witness :
  fst (HandwritingToTextBackend.process_image backend "scan.PNG" slow_host installed)
  = Return (false, "Text extraction failed: Tesseract test timed out")
  ∧ ("Text extraction failed: Tesseract test timed out" = "No image path provided"
     ∨ "Text extraction failed: Tesseract test timed out" = "File not found"
     ∨ "Text extraction failed: Tesseract test timed out" = "Unsupported file format"
     ∨ (∃ m, "Text extraction failed: Tesseract test timed out"
             = "Text extraction failed: Image processing failed: " +:+ m)
     ∨ (∃ m, "Text extraction failed: Tesseract test timed out"
             = "Text extraction failed: Tesseract validation failed: " +:+ m)
     ∨ "Text extraction failed: Tesseract test timed out"
       = "Text extraction failed: Tesseract test timed out"
     ∨ (∃ img e,
          env_image_to_string slow_host (tesseract_cmd installed) img
            (OCRProcessor.config (HandwritingToTextBackend.ocr backend)) = Raise e
          ∧ "Text extraction failed: Tesseract test timed out"
            = "Text extraction failed: " +:+ exn_msg e)).
Proof.
  split; [reflexivity|].
  apply (process_image_failure_reasons slow_host installed backend "scan.PNG").
  reflexivity.
Defined.

(** X25.  End to end: [process_image] returns (True, text) exactly when
    the path is not empty, exists and has a supported extension, Pillow
    answers the four calls of the preprocessing, the engine command passes
    its test, and the recognition call answers; the text is that answer,
    stripped. *)
Theorem process_image_success
    (E : environ) (st : state) (self : HandwritingToTextBackend.t)
    (image_path text : string) :
  fst (HandwritingToTextBackend.process_image self image_path E st)
  = Return (true, text)
  ↔ ∃ img out,
      image_path ≠ ""
      ∧ path_exists (fs st) image_path = true
      ∧ has_supported_extension image_path = true
      ∧ pillow_pipeline E (fs st) image_path = Return img
      ∧ engine_runnable E (fs st) (tesseract_cmd st) = true
      ∧ env_image_to_string E (tesseract_cmd st) img
          (OCRProcessor.config (HandwritingToTextBackend.ocr self)) = Return out
      ∧ text = strip out.
Proof.
  rewrite process_image_run.
  pose proof (extract_text_returns_iff E (HandwritingToTextBackend.ocr self) image_path
                true (log (EvExists image_path true) st) text) as Hiff.
  cbn [fs tesseract_cmd log image_for_engine] in Hiff.
  split.
  - destruct (truthy image_path); cbn [negb fst]; [|discriminate].
    destruct (path_exists (fs st) image_path) eqn:Hex; cbn [negb fst]; [|discriminate].
    destruct (has_supported_extension image_path); cbn [negb fst]; [|discriminate].
    unfold delegate.
    destruct (OCRProcessor.extract_text _ image_path true E _) as [[t|e] st1];
      cbn [fst] in *; [|discriminate].
    intros [= ->].
    destruct (proj1 Hiff eq_refl) as (img & out & Hne & _ & Himg & Hrun & Hocr & Htext).
    exists img, out. done.
  - intros (img & out & Hne & Hex & Hext & Himg & Hrun & Hocr & Htext).
    destruct image_path as [|c p]; [done|]. cbn [truthy negb].
    rewrite Hex, Hext. cbn [negb]. unfold delegate.
    assert (Hret : fst (OCRProcessor.extract_text (HandwritingToTextBackend.ocr self)
                          (String c p) true E (log (EvExists (String c p) true) st))
                   = Return text).
    { apply Hiff. exists img, out. done. }
    destruct (OCRProcessor.extract_text _ _ true E _) as [[t|e] st1];
      cbn [fst] in *; by simplify_eq.
Qed.

(** X25, instances: the sample page, and the same page on the host whose
    engine frames the text with white space from outside ASCII. *)
Lemma process_image_success_witness :
  fst (HandwritingToTextBackend.process_image backend "scan.PNG" windows_host installed)
  = Return (true, "TEST")
  ∧ fst (HandwritingToTextBackend.process_image backend "scan.PNG" padding_host installed)
    = Return (true, "TEST").
Proof.
  split.
  - apply (process_image_success windows_host installed backend "scan.PNG" "TEST").
    exists (Image "L" (img_pixels page)), (" TEST" +:+ nl).
    repeat split. discriminate.
  - apply (process_image_success padding_host installed backend "scan.PNG" "TEST").
    exists (Image "L" (img_pixels page)), (nbsp +:+ "TEST" +:+ em_space +:+ nl).
    repeat split. discriminate.
Defined.

(** ** Saving *)

(** X14.  The calls of [save_text].  It makes no call at all, or a single
    refused attempt to open the output path, or exactly three calls: the
    path is opened for writing with the encoding utf-8, the whole text is
    written in one call, and the file is closed, also when the write
    failed. *)
Theorem save_text_calls (E : environ) (st : state) (text output_path : string) :
  ∃ evs,
    trace (snd (HandwritingToTextBackend.save_text text output_path E st))
    = trace st ++ evs
    ∧ (evs = []
       ∨ (∃ e, evs = [EvOpenW output_path "utf-8" (Some e)])
       ∨ ∃ w c, evs = [EvOpenW output_path "utf-8" None;
                       EvWrite output_path text w;
                       EvClose output_path c]).
Proof.
  destruct (HandwritingToTextBackend.save_text text output_path E st) as [r st'] eqn:H.
  run_save_text.
  all: cbn [snd log with_fs fs tesseract_cmd trace]; explicit_trace.
  all: first [ by left
             | by right; left; eexists
             | by right; right; do 2 eexists ].
Qed.



(** X17.  The reasons for which [save_text] fails: one of its two
    refusals, or "Error saving file: " followed by the message of the host
    error that propagated.  An error of the close hides an error of the
    write. *)
Theorem save_text_failure_reasons
    (E : environ) (st : state) (text output_path msg : string) :
  fst (HandwritingToTextBackend.save_text text output_path E st) = Return (false, msg) →
  (text = "" ∧ msg = "No text to save")
  ∨ (text ≠ "" ∧ output_path = "" ∧ msg = "No output path provided")
  ∨ ∃ e,
      msg = "Error saving file: " +:+ exn_msg e
      ∧ (env_open_w E output_path "utf-8" = Some e
         ∨ (env_open_w E output_path "utf-8" = None
            ∧ env_close E output_path = Some e)
         ∨ (env_open_w E output_path "utf-8" = None
            ∧ env_close E output_path = None
            ∧ env_write E output_path text = Some e)).
Proof.
  destruct (HandwritingToTextBackend.save_text text output_path E st) as [r st'] eqn:H.
  cbn [fst]. intros ->. run_save_text.
  all: first [ by left; split; [destruct text|]
             | by right; left; split; [destruct text|split; [destruct output_path|]]
             | right; right; eexists; split; [reflexivity|]; by eauto 10 ].
Qed.

(** X17, an instance: the host refuses to open the path. *)
Lemma save_text_failure_reasons_witness :
  fst (HandwritingToTextBackend.save_text "TEST" "out.txt" read_only_host installed)
  = Return (false, "Error saving file: [Errno 13] Permission denied: 'out.txt'")
  ∧ ∃ e,
      "Error saving file: [Errno 13] Permission denied: 'out.txt'"
      = "Error saving file: " +:+ exn_msg e
      ∧ env_open_w read_only_host "out.txt" "utf-8" = Some e.
Proof.
  split; [reflexivity|].
  destruct (save_text_failure_reasons read_only_host installed "TEST" "out.txt"
              "Error saving file: [Errno 13] Permission denied: 'out.txt'" eq_refl)
    as [[Hempty _]|[(_ & Hempty & _)|(e & Hmsg & [Hopen|[[Hopen _]|[Hopen _]]])]];
    try discriminate.
  by exists e.
Defined.

(** * Properties of the window *)

Lemma process_image_returns
    (E : environ) (st : state) (self : HandwritingToTextBackend.t) (image_path : string) :
  ∃ ok msg st',
    HandwritingToTextBackend.process_image self image_path E st = (Return (ok, msg), st').
Proof.
  rewrite process_image_run. repeat case_match; try by do 3 eexists.
  unfold delegate.
  destruct (OCRProcessor.extract_text _ _ _ _ _) as [[text|e] st']; by do 3 eexists.
Qed.

Lemma save_text_returns (E : environ) (st : state) (text output_path : string) :
  ∃ ok msg st',
    HandwritingToTextBackend.save_text text output_path E st = (Return (ok, msg), st').
Proof.
  destruct (HandwritingToTextBackend.save_text text output_path E st) as [r st'] eqn:H.
  run_save_text; by do 3 eexists.
Qed.

Ltac unfold_handlers :=
  unfold TextExtractorApp.extract_text, TextExtractorApp.save_text,
    TextExtractorApp.upload_image, TextExtractorApp.clear_text,
    TextExtractorApp.gfinally, TextExtractorApp.gtry, TextExtractorApp.gbind,
    TextExtractorApp.gret, TextExtractorApp.call, TextExtractorApp.self,
    TextExtractorApp.showerror, TextExtractorApp.showinfo,
    TextExtractorApp.askopenfilename, TextExtractorApp.asksaveasfilename,
    TextExtractorApp.os_path_basename, TextExtractorApp.text_display_get,
    TextExtractorApp.text_display_delete, TextExtractorApp.text_display_insert,
    TextExtractorApp.update in *;
  cbv beta iota zeta delta
    [fst snd TextExtractorApp.backend TextExtractorApp.current_image
     TextExtractorApp.upload_label TextExtractorApp.text_display
     TextExtractorApp.cursor TextExtractorApp.dialogs
     TextExtractorApp.with_current_image TextExtractorApp.with_upload_label
     TextExtractorApp.with_text_display TextExtractorApp.with_cursor
     TextExtractorApp.with_dialog TextExtractorApp.selected truthy negb] in *.

(** The handler of the convert button, on a window with a selection. *)
Lemma gui_extract_run
    (D : desktop) (E : environ) (w : TextExtractorApp.t) (st : state)
    (image_path : string) (ok : bool) (msg : string) (st' : state) :
  TextExtractorApp.current_image w = Some image_path →
  image_path ≠ "" →
  HandwritingToTextBackend.process_image (TextExtractorApp.backend w) image_path E st
  = (Return (ok, msg), st') →
  TextExtractorApp.extract_text D E (w, st)
  = (Return (),
     ({| TextExtractorApp.backend := TextExtractorApp.backend w;
         TextExtractorApp.current_image := Some image_path;
         TextExtractorApp.upload_label := TextExtractorApp.upload_label w;
         TextExtractorApp.text_display :=
           if ok then msg else TextExtractorApp.text_display w;
         TextExtractorApp.cursor := "";
         TextExtractorApp.dialogs :=
           TextExtractorApp.dialogs w
           ++ [if ok then ShowInfo "Success" "Text extracted successfully!"
               else ShowError "Error" ("Text extraction failed: " +:+ msg)] |},
      st')).
Proof.
  intros Hsel Hne Hrun. destruct w as [b cur label shown cursor boxes].
  cbn [TextExtractorApp.current_image TextExtractorApp.backend] in Hsel, Hrun.
  subst cur.
  destruct image_path as [|c p]; [done|]. unfold_handlers.
  change (default "" (Some (String c p))) with (String c p). rewrite Hrun.
  by destruct ok.
Qed.

(** X18.  The convert button.  With an image selected, the handler ends
    without an error of its own, shows exactly one message box and resets
    the cursor.  When [process_image] succeeds, the text widget holds the
    extracted text and nothing of what it held before; when it fails, the
    widget is left as it was and the box shows the reason after
    "Text extraction failed: ".  The box "Unexpected error" is never
    shown. *)
Theorem gui_extract_outcome
    (D : desktop) (E : environ) (w : TextExtractorApp.t) (st : state)
    (image_path : string) :
  TextExtractorApp.current_image w = Some image_path →
  image_path ≠ "" →
  ∃ ok msg st',
    HandwritingToTextBackend.process_image (TextExtractorApp.backend w) image_path E st
    = (Return (ok, msg), st')
    ∧ TextExtractorApp.extract_text D E (w, st)
      = (Return (),
         ({| TextExtractorApp.backend := TextExtractorApp.backend w;
             TextExtractorApp.current_image := Some image_path;
             TextExtractorApp.upload_label := TextExtractorApp.upload_label w;
             TextExtractorApp.text_display :=
               if ok then msg else TextExtractorApp.text_display w;
             TextExtractorApp.cursor := "";
             TextExtractorApp.dialogs :=
               TextExtractorApp.dialogs w
               ++ [if ok then ShowInfo "Success" "Text extracted successfully!"
                   else ShowError "Error" ("Text extraction failed: " +:+ msg)] |},
          st')).
Proof.
  intros Hsel Hne.
  destruct (process_image_returns E st (TextExtractorApp.backend w) image_path)
    as (ok & msg & st' & Hrun).
  exists ok, msg, st'. split; [exact Hrun|]. by apply gui_extract_run.
Qed.

(** X18, an instance: the sample page is converted, and what the widget
    held is replaced. *)
Lemma gui_extract_outcome_witness :
  TextExtractorApp.extract_text (picks "scan.PNG" "out.txt") windows_host
    ({| TextExtractorApp.backend := backend;
        TextExtractorApp.current_image := Some "scan.PNG";
        TextExtractorApp.upload_label := "🖼️ Selected: scan.PNG";
        TextExtractorApp.text_display := "old text";
        TextExtractorApp.cursor := "";
        TextExtractorApp.dialogs := [] |}, installed)
  = (Return (),
     ({| TextExtractorApp.backend := backend;
         TextExtractorApp.current_image := Some "scan.PNG";
         TextExtractorApp.upload_label := "🖼️ Selected: scan.PNG";
         TextExtractorApp.text_display := "TEST";
         TextExtractorApp.cursor := "";
         TextExtractorApp.dialogs := [ShowInfo "Success" "Text extracted successfully!"] |},
      snd (HandwritingToTextBackend.process_image backend "scan.PNG" windows_host
             installed))).
Proof.
  destruct (gui_extract_outcome (picks "scan.PNG" "out.txt") windows_host
              {| TextExtractorApp.backend := backend;
                 TextExtractorApp.current_image := Some "scan.PNG";
                 TextExtractorApp.upload_label := "🖼️ Selected: scan.PNG";
                 TextExtractorApp.text_display := "old text";
                 TextExtractorApp.cursor := "";
                 TextExtractorApp.dialogs := [] |}
              installed "scan.PNG" eq_refl)
    as (ok & msg & st' & Hrun & Hgui); [discriminate|].
  rewrite Hgui. cbn [TextExtractorApp.backend] in Hrun.
  assert (Hval : (Return (ok, msg), st')
                 = (Return (true, "TEST"),
                    snd (HandwritingToTextBackend.process_image backend "scan.PNG"
                           windows_host installed)))
    by (rewrite <- Hrun; reflexivity).
  by inversion Hval.
Defined.

Lemma process_image_refusals
    (E : environ) (st : state) (self : HandwritingToTextBackend.t)
    (image_path msg : string) (st' : state) :
  image_path ≠ "" →
  HandwritingToTextBackend.process_image self image_path E st
  = (Return (false, msg), st') →
  msg = "File not found"
  ∨ msg = "Unsupported file format"
  ∨ ∃ reason, msg = "Text extraction failed: " +:+ reason.
Proof.
  intros Hne. rewrite process_image_run.
  destruct image_path as [|c p]; [done|]. cbn [truthy negb].
  destruct (path_exists (fs st) (String c p)); cbn [negb]; [|intros [= <- _]; by left].
  destruct (has_supported_extension (String c p)); cbn [negb];
    [|intros [= <- _]; right; by left].
  unfold delegate.
  destruct (OCRProcessor.extract_text _ _ _ _ _) as [[text|e] st1] eqn:H; [done|].
  apply extract_text_raises in H as [reason ->]. intros [= <- _].
  right; right. by eexists.
Qed.

(** X19.  What the convert button tells the user.  It shows exactly one
    message box: the request to select an image, the success, or an error
    that starts with "Text extraction failed: ".  A failure inside the
    invoker already carries that prefix from [extract_text], so the user
    reads it twice; the refusal "No image path provided" of the facade can
    never be shown. *)
Theorem gui_extract_boxes
    (D : desktop) (E : environ) (w : TextExtractorApp.t) (st : state) :
  ∃ d,
    TextExtractorApp.dialogs (fst (snd (TextExtractorApp.extract_text D E (w, st))))
    = TextExtractorApp.dialogs w ++ [d]
    ∧ convert_box d
    ∧ (d = ShowError "Error" "Please select an image first!"
       ↔ TextExtractorApp.selected (TextExtractorApp.current_image w) = false).
Proof.
  destruct (TextExtractorApp.selected (TextExtractorApp.current_image w)) eqn:Hsel.
  - destruct (TextExtractorApp.current_image w) as [[|c p]|] eqn:Hcur; try done.
    destruct (process_image_returns E st (TextExtractorApp.backend w) (String c p))
      as (ok & msg & st' & Hrun).
    rewrite (gui_extract_run D E w st (String c p) ok msg st' Hcur ltac:(done) Hrun).
    cbn [fst snd TextExtractorApp.dialogs]. eexists. split; [reflexivity|].
    destruct ok.
    + split; [right; by left|]. split; discriminate.
    + apply process_image_refusals in Hrun as [->|[->|[reason ->]]]; [| | |done].
      * split; [do 2 right; by left|]. split; discriminate.
      * split; [do 3 right; by left|]. split; discriminate.
      * split; [do 4 right; by eexists|]. split; discriminate.
  - destruct w as [b cur label shown cursor boxes].
    cbn [TextExtractorApp.current_image] in Hsel. unfold_handlers.
    assert (Hno : match cur with Some path => truthy path | None => false end = false)
      by exact Hsel.
    clear Hsel. destruct cur as [[|c p]|]; try discriminate Hno.
    all: eexists; split; [reflexivity|]; split; [by left|]; done.
Qed.

(** The handler of the save button, case by case. *)
Lemma gui_save_run (D : desktop) (E : environ) (w : TextExtractorApp.t) (st : state) :
  TextExtractorApp.save_text D E (w, st)
  = if negb (truthy (strip (TextExtractorApp.text_display w +:+ nl))) then
      (Return (), (TextExtractorApp.with_dialog (ShowError "Error" "No text to save!") w, st))
    else if negb (truthy (ask_save D)) then
      (Return (), (TextExtractorApp.with_dialog (AskSaveAsFilename (ask_save D)) w, st))
    else
      match HandwritingToTextBackend.save_text
              (strip (TextExtractorApp.text_display w +:+ nl)) (ask_save D) E st with
      | (Return (ok, msg), st') =>
          (Return (),
           (TextExtractorApp.with_dialog
              (if ok then ShowInfo "Success" msg else ShowError "Error" msg)
              (TextExtractorApp.with_dialog (AskSaveAsFilename (ask_save D)) w),
            st'))
      | (Raise e, st') =>
          (Raise e,
           (TextExtractorApp.with_dialog (AskSaveAsFilename (ask_save D)) w, st'))
      end.
Proof.
  destruct w as [b cur label shown cursor boxes]. unfold_handlers.
  destruct (strip (shown +:+ nl)) as [|c text]; [reflexivity|].
  destruct (ask_save D) as [|c' path]; [reflexivity|].
  destruct (HandwritingToTextBackend.save_text _ _ E st) as [[[[] msg]|e] st'];
    reflexivity.
Qed.



(** X21.  Cancelling the file dialog of the select button forgets the
    selection that was made before, while the upload label goes on showing
    the name of the old file; the convert button then asks to select an
    image first, and the backend is not called. *)
Theorem gui_cancel_forgets_selection
    (D : desktop) (E : environ) (w : TextExtractorApp.t) (st : state) :
  ask_open D = "" →
  ∃ w1,
    TextExtractorApp.upload_image D E (w, st) = (Return (), (w1, st))
    ∧ TextExtractorApp.current_image w1 = None
    ∧ TextExtractorApp.upload_label w1 = TextExtractorApp.upload_label w
    ∧ TextExtractorApp.text_display w1 = TextExtractorApp.text_display w
    ∧ ∀ D' E',
        TextExtractorApp.extract_text D' E' (w1, st)
        = (Return (),
           (TextExtractorApp.with_dialog
              (ShowError "Error" "Please select an image first!") w1,
            st)).
Proof.
  intros Hcancel. destruct w as [b cur label shown cursor boxes].
  eexists. split.
  - unfold_handlers. rewrite Hcancel. reflexivity.
  - repeat split.
Qed.

(** X21, an instance: the page was selected, then the dialog is opened
    again and cancelled. *)
Lemma gui_cancel_forgets_selection_witness :
  ∃ w1,
    TextExtractorApp.upload_image (picks "" "out.txt") windows_host
      (snd (TextExtractorApp.upload_image (picks "C:/scans/scan.PNG" "out.txt")
              windows_host (fresh_window, installed)))
    = (Return (), (w1, installed))
    ∧ TextExtractorApp.current_image w1 = None
    ∧ TextExtractorApp.upload_label w1 = "🖼️ Selected: scan.PNG".
Proof.
  destruct (gui_cancel_forgets_selection (picks "" "out.txt") windows_host
              (fst (snd (TextExtractorApp.upload_image
                           (picks "C:/scans/scan.PNG" "out.txt") windows_host
                           (fresh_window, installed))))
              installed eq_refl)
    as (w1 & Hrun & Hcur & Hlabel & _).
  exists w1. split; [exact Hrun|]. split; [exact Hcur|]. rewrite Hlabel. reflexivity.
Defined.

Lemma process_image_success_strip
    (E : environ) (st : state) (self : HandwritingToTextBackend.t)
    (image_path text : string) (st' : state) :
  HandwritingToTextBackend.process_image self image_path E st
  = (Return (true, text), st') →
  ∃ out, text = strip out.
Proof.
  rewrite process_image_run. repeat case_match; try discriminate.
  unfold delegate.
  destruct (OCRProcessor.extract_text _ image_path true E _) as [[t|e] st1] eqn:Hext;
    [|discriminate].
  intros [= <- _].
  apply (extract_text_returns_strip E (HandwritingToTextBackend.ocr self) image_path
           true (log (EvExists image_path true) st) t).
  by rewrite Hext.
Qed.

(** X22.  Convert, then save.  After a successful conversion the text
    widget holds the extracted text, and the save button, pressed without
    an edit in between, hands exactly this text to [save_text] of the
    backend: stripping it again changes nothing.  When the engine read no
    text at all, the save button answers "No text to save!" and asks for
    no file. *)
Theorem gui_extract_then_save
    (D : desktop) (E : environ) (D' : desktop) (E' : environ)
    (w : TextExtractorApp.t) (st : state) (image_path text : string) (st1 : state) :
  TextExtractorApp.current_image w = Some image_path →
  image_path ≠ "" →
  HandwritingToTextBackend.process_image (TextExtractorApp.backend w) image_path E st
  = (Return (true, text), st1) →
  ∃ w1,
    TextExtractorApp.extract_text D E (w, st) = (Return (), (w1, st1))
    ∧ TextExtractorApp.text_display w1 = text
    ∧ (text = "" →
       TextExtractorApp.save_text D' E' (w1, st1)
       = (Return (),
          (TextExtractorApp.with_dialog (ShowError "Error" "No text to save!") w1, st1)))
    ∧ (text ≠ "" → ask_save D' ≠ "" →
       snd (snd (TextExtractorApp.save_text D' E' (w1, st1)))
       = snd (HandwritingToTextBackend.save_text text (ask_save D') E' st1)).
Proof.
  intros Hsel Hne Hrun.
  rewrite (gui_extract_run D E w st image_path true text st1 Hsel Hne Hrun).
  eexists. split; [reflexivity|]. cbn [TextExtractorApp.text_display].
  split; [reflexivity|].
  apply process_image_success_strip in Hrun as [out ->].
  assert (Hstrip : strip (strip out +:+ nl) = strip out)
    by apply strip_line_of_stripped, strip_stripped.
  rewrite gui_save_run. cbn [TextExtractorApp.text_display]. rewrite Hstrip.
  split.
  - by intros ->.
  - intros Htext Hpath.
    destruct (strip out); [done|]. destruct (ask_save D'); [done|].
    cbn [truthy negb].
    destruct (HandwritingToTextBackend.save_text _ _ E' st1) as [[[ok msg]|e] st2];
      reflexivity.
Qed.

(** X22, an instance: the sample page is converted and saved to out.txt. *)
Lemma gui_extract_then_save_witness :
  ∃ w1 st1,
    TextExtractorApp.extract_text (picks "scan.PNG" "out.txt") windows_host
      (page_selected, installed)
    = (Return (), (w1, st1))
    ∧ TextExtractorApp.text_display w1 = "TEST"
    ∧ read_bytes
        (fs (snd (snd (TextExtractorApp.save_text (picks "scan.PNG" "out.txt")
                         windows_host (w1, st1)))))
        "out.txt"
      = Some "TEST".
Proof.
  destruct (gui_extract_then_save (picks "scan.PNG" "out.txt") windows_host
              (picks "scan.PNG" "out.txt") windows_host page_selected installed
              "scan.PNG" "TEST"
              (snd (HandwritingToTextBackend.process_image backend "scan.PNG"
                      windows_host installed))
              eq_refl ltac:(discriminate) eq_refl)
    as (w1 & Hrun & Hshown & _ & Hsave).
  exists w1. eexists. split; [exact Hrun|]. split; [exact Hshown|].
  rewrite (Hsave ltac:(discriminate) ltac:(discriminate)). reflexivity.
Defined.

Lemma app_init_run (D : desktop) (E : environ) (st : state) :
  TextExtractorApp.__init__ D E st
  = match first_refusal D window_calls with
    | Some e => (Raise e, st)
    | None =>
        match OCRProcessor.__init__ None E st with
        | (Return o, st') =>
            match tk_refuses D TkCreateWidgets with
            | Some e => (Raise e, st')
            | None =>
                (Return {| TextExtractorApp.backend :=
                             {| HandwritingToTextBackend.ocr := o |};
                           TextExtractorApp.current_image := None;
                           TextExtractorApp.upload_label := TextExtractorApp.no_image_label;
                           TextExtractorApp.text_display := "";
                           TextExtractorApp.cursor := "";
                           TextExtractorApp.dialogs := [] |},
                 st')
            end
        | (Raise e, st') => (Raise e, st')
        end
    end.
Proof.
  unfold TextExtractorApp.__init__, window_calls, first_refusal, tk, bind.
  destruct (tk_refuses D (TkTitle _)); [done|].
  destruct (tk_refuses D (TkState _)); [done|].
  destruct (tk_refuses D (TkConfigure _)); [done|].
  unfold ret at 1 2 3. rewrite backend_init_run.
  destruct (OCRProcessor.__init__ None E st) as [[o|e] st']; [|done].
  by destruct (tk_refuses D TkCreateWidgets).
Qed.

(** X23.  A window that [TextExtractorApp.__init__] has just built has no
    image selected and an empty text widget: the convert button asks to
    select an image first, the save button answers "No text to save!", and
    neither calls the backend. *)
Theorem gui_fresh_window
    (D0 : desktop) (E : environ) (st : state) (w : TextExtractorApp.t) (st' : state) :
  TextExtractorApp.__init__ D0 E st = (Return w, st') →
  TextExtractorApp.current_image w = None
  ∧ TextExtractorApp.text_display w = ""
  ∧ TextExtractorApp.dialogs w = []
  ∧ (∀ D E',
       TextExtractorApp.extract_text D E' (w, st')
       = (Return (),
          (TextExtractorApp.with_dialog
             (ShowError "Error" "Please select an image first!") w,
           st')))
  ∧ (∀ D E',
       TextExtractorApp.save_text D E' (w, st')
       = (Return (),
          (TextExtractorApp.with_dialog (ShowError "Error" "No text to save!") w, st'))).
Proof.
  rewrite app_init_run.
  destruct (first_refusal D0 window_calls); [discriminate|].
  destruct (OCRProcessor.__init__ None E st) as [[o|e] st0]; [|discriminate].
  destruct (tk_refuses D0 TkCreateWidgets); [discriminate|].
  intros [= <- <-]. repeat split.
Qed.

(** X23, an instance: the window of the sample host. *)
Lemma gui_fresh_window_witness :
  TextExtractorApp.save_text (picks "" "out.txt") windows_host
    (fresh_window,
     snd (TextExtractorApp.__init__ (picks "" "out.txt") windows_host installed))
  = (Return (),
     (TextExtractorApp.with_dialog (ShowError "Error" "No text to save!") fresh_window,
      snd (TextExtractorApp.__init__ (picks "" "out.txt") windows_host installed))).
Proof.
  destruct (gui_fresh_window (picks "" "out.txt") windows_host installed fresh_window
              (snd (TextExtractorApp.__init__ (picks "" "out.txt") windows_host installed))
              eq_refl)
    as (_ & _ & _ & _ & Hsave).
  apply Hsave.
Defined.

(** X24.  Starting the application.  [TextExtractorApp.__init__] first
    titles, maximises and colours the top-level window: when Tk refuses
    one of these calls, its error ends the constructor before the locator
    has made any call.  Otherwise the locator runs without a hint.  When
    it accepts none of its four candidates, the constructor ends with the
    [ValueError] of the locator, which it does not catch; when it accepts
    one, the widgets are created and the window is built, unless Tk
    refuses them.  So without an engine the application never starts. *)
Theorem gui_needs_engine (D : desktop) (E : environ) (st : state) :
  (∀ e, first_refusal D window_calls = Some e →
        TextExtractorApp.__init__ D E st = (Raise e, st))
  ∧ (first_refusal D window_calls = None →
     (Forall (λ p, accepts E (fs st) p = false)
        (OCRProcessor.possible_paths (env_getenv E "USERNAME") None)
      → fst (TextExtractorApp.__init__ D E st)
        = Raise (Exn ValueError
                   (OCRProcessor.not_found_message (env_isprintable E)
                      (OCRProcessor.possible_paths (env_getenv E "USERNAME") None))))
     ∧ (Exists (λ p, accepts E (fs st) p = true)
          (OCRProcessor.possible_paths (env_getenv E "USERNAME") None)
        → fst (TextExtractorApp.__init__ D E st)
          = match tk_refuses D TkCreateWidgets with
            | Some e => Raise e
            | None => Return fresh_window
            end))
  ∧ (Forall (λ p, accepts E (fs st) p = false)
       (OCRProcessor.possible_paths (env_getenv E "USERNAME") None)
     → ∃ e, fst (TextExtractorApp.__init__ D E st) = Raise e).
Proof.
  rewrite app_init_run, init_run. split; [|split].
  - by intros e ->.
  - intros ->. split.
    + intros Hrej. by rewrite test_paths_rejected.
    + intros Hacc.
      destruct (first_accepted_or_none E (fs st)
                  (OCRProcessor.possible_paths (env_getenv E "USERNAME") None))
        as [Hrej|(before & c & after & Hlist & Hrej & Hc)].
      * apply Exists_exists in Hacc as (p & Hp & Hpacc).
        rewrite Forall_forall in Hrej. rewrite (Hrej p Hp) in Hpacc. discriminate.
      * rewrite Hlist. rewrite test_paths_first_accepted by done.
        by destruct (tk_refuses D TkCreateWidgets).
  - intros Hrej. destruct (first_refusal D window_calls) as [e|]; [by exists e|].
    rewrite test_paths_rejected by done. by eexists.
Qed.

(** X24, instances: nothing is installed and the bare name cannot be run;
    and a desktop under X11, where the window cannot be maximised and the
    locator is not reached although the engine is installed. *)
Lemma gui_needs_engine_witness :
  fst (TextExtractorApp.__init__ (picks "" "") no_engine_host bare)
  = Raise (Exn ValueError
             (OCRProcessor.not_found_message unicode_14_sample
                (OCRProcessor.possible_paths (Some "ada") None)))
  ∧ TextExtractorApp.__init__ x11_desktop windows_host installed
    = (Raise not_zoomable, installed).
Proof.
  split.
  - destruct (gui_needs_engine (picks "" "") no_engine_host bare) as (_ & Hfail & _).
    apply (Hfail eq_refl). repeat constructor.
  - destruct (gui_needs_engine x11_desktop windows_host installed) as (Hwindow & _).
    apply Hwindow. reflexivity.
Defined.
